(** * Research-paper repository: content hashing, deduplication and search

    A shallow embedding of [resarch.py] (class [ResearchPaperRepository]):
    the SQLite tables it creates, the statements it runs on them, the file
    hashing it does with [hashlib], and the properties its specification
    states about them.

    Conventions of the model.
    - Python [str] is [string]; one [ascii] stands for one character.
    - Python [bytes] is [list byte].
    - [None] is [None]; an optional argument is an [option string], and the
      test [if x:] of the source is [truthy x] (neither [None] nor empty).
    - An exception is a [Raise e] outcome of type [result].
    - The file system is a finite map from paths to file contents; every
      path that exists is a readable regular file, and writing a file
      succeeds.
    - The SQLite database is a record of its tables; a statement that fails
      leaves the record as it was (statement atomicity of the engine).
    - What the SQLite build decides and the repository does not (the FTS5
      query language, [strftime]) is a field of the class [Engine]. *)

From Stdlib Require Import ZArith Lia List String Ascii.
From Stdlib.Strings Require Import Byte.
From Stdlib Require Import Sorted.
From stdpp Require Import base gmap strings list.
From Equations Require Import Equations.
Import ListNotations.
Local Open Scope Z_scope.
Local Open Scope string_scope.
Local Open Scope list_scope.

(** ** Outcomes of a call *)

Inductive exn : Type :=
| FileNotFoundError
| IntegrityError
| OperationalError.

Inductive result (A : Type) : Type :=
| Ok (a : A)
| Raise (e : exn).
Arguments Ok {A} a.
Arguments Raise {A} e.

(** [if x:] on an optional string argument. *)
Definition truthy (x : option string) : bool :=
  match x with
  | Some s => negb (String.eqb s "")
  | None => false
  end.

(** ** SHA-256 (FIPS 180-4), the digest behind [hashlib.sha256] *)

Module SHA256.

Definition wrap32 (x : Z) : Z := x mod 2 ^ 32.
Definition add32 (x y : Z) : Z := wrap32 (x + y).
Definition rotr (n x : Z) : Z :=
  Z.lor (Z.shiftr x n) (wrap32 (Z.shiftl x (32 - n))).
Definition not32 (x : Z) : Z := Z.lxor x (2 ^ 32 - 1).

Definition Ch (x y z : Z) : Z := Z.lxor (Z.land x y) (Z.land (not32 x) z).
Definition Maj (x y z : Z) : Z :=
  Z.lxor (Z.lxor (Z.land x y) (Z.land x z)) (Z.land y z).
Definition Sum0 (x : Z) : Z := Z.lxor (Z.lxor (rotr 2 x) (rotr 13 x)) (rotr 22 x).
Definition Sum1 (x : Z) : Z := Z.lxor (Z.lxor (rotr 6 x) (rotr 11 x)) (rotr 25 x).
Definition sig0 (x : Z) : Z := Z.lxor (Z.lxor (rotr 7 x) (rotr 18 x)) (Z.shiftr x 3).
Definition sig1 (x : Z) : Z := Z.lxor (Z.lxor (rotr 17 x) (rotr 19 x)) (Z.shiftr x 10).

(** The sixty-four round constants (fractional parts of the cube roots of
    the first sixty-four primes), in decimal. *)
Definition K : list Z := [
  1116352408; 1899447441; 3049323471; 3921009573;
  961987163; 1508970993; 2453635748; 2870763221;
  3624381080; 310598401; 607225278; 1426881987;
  1925078388; 2162078206; 2614888103; 3248222580;
  3835390401; 4022224774; 264347078; 604807628;
  770255983; 1249150122; 1555081692; 1996064986;
  2554220882; 2821834349; 2952996808; 3210313671;
  3336571891; 3584528711; 113926993; 338241895;
  666307205; 773529912; 1294757372; 1396182291;
  1695183700; 1986661051; 2177026350; 2456956037;
  2730485921; 2820302411; 3259730800; 3345764771;
  3516065817; 3600352804; 4094571909; 275423344;
  430227734; 506948616; 659060556; 883997877;
  958139571; 1322822218; 1537002063; 1747873779;
  1955562222; 2024104815; 2227730452; 2361852424;
  2428436474; 2756734187; 3204031479; 3329325298 ].

(** The eight working registers a..h, also the chaining value. *)
Record regs : Type := Regs { ra : Z; rb : Z; rc : Z; rd : Z; re : Z; rf : Z; rg : Z; rh : Z }.

Definition H0 : regs :=
  Regs 1779033703 3144134277 1013904242 2773480762
       1359893119 2600822924 528734635 1541459225.

Definition byteZ (b : byte) : Z := Z.of_N (Byte.to_N b).

(** Big-endian 32-bit words of a block. *)
Fixpoint words_of_bytes (l : list byte) : list Z :=
  match l with
  | b0 :: b1 :: b2 :: b3 :: r =>
      (byteZ b0 * 2 ^ 24 + byteZ b1 * 2 ^ 16 + byteZ b2 * 2 ^ 8 + byteZ b3)
        :: words_of_bytes r
  | _ => []
  end.

(** Message schedule, most recent word first: the head is W[t-1]. *)
Fixpoint extend (n : nat) (w : list Z) : list Z :=
  match n with
  | O => w
  | S n' =>
      let wt := add32 (add32 (add32 (sig1 (nth 1 w 0)) (nth 6 w 0))
                             (sig0 (nth 14 w 0))) (nth 15 w 0) in
      extend n' (wt :: w)
  end.

Definition schedule (block : list byte) : list Z :=
  rev (extend 48 (rev (words_of_bytes block))).

Definition round (s : regs) (kw : Z * Z) : regs :=
  let t1 := add32 (add32 (add32 (add32 (rh s) (Sum1 (re s)))
                                (Ch (re s) (rf s) (rg s))) (fst kw)) (snd kw) in
  let t2 := add32 (Sum0 (ra s)) (Maj (ra s) (rb s) (rc s)) in
  Regs (add32 t1 t2) (ra s) (rb s) (rc s) (add32 (rd s) t1) (re s) (rf s) (rg s).

Definition compress (h : regs) (block : list byte) : regs :=
  let s := fold_left round (combine K (schedule block)) h in
  Regs (add32 (ra h) (ra s)) (add32 (rb h) (rb s)) (add32 (rc h) (rc s))
       (add32 (rd h) (rd s)) (add32 (re h) (re s)) (add32 (rf h) (rf s))
       (add32 (rg h) (rg s)) (add32 (rh h) (rh s)).

Definition byte_of_Z (x : Z) : byte :=
  match Byte.of_N (Z.to_N (x mod 256)) with
  | Some b => b
  | None => x00
  end.

(** Big-endian bytes of the low [8 * n] bits of [x]. *)
Fixpoint be_bytes (n : nat) (x : Z) : list byte :=
  match n with
  | O => []
  | S n' => byte_of_Z (Z.shiftr x (8 * Z.of_nat n')) :: be_bytes n' x
  end.

Definition bytes_of_regs (h : regs) : list byte :=
  be_bytes 4 (ra h) ++ be_bytes 4 (rb h) ++ be_bytes 4 (rc h) ++ be_bytes 4 (rd h) ++
  be_bytes 4 (re h) ++ be_bytes 4 (rf h) ++ be_bytes 4 (rg h) ++ be_bytes 4 (rh h).

(** Padding of a message of [n] bytes: the bit 1, zeros up to 56 modulo
    64, and the length in bits on 64 bits. *)
Definition padding (n : Z) : list byte :=
  x80 :: repeat x00 (Z.to_nat ((55 - n) mod 64)) ++ be_bytes 8 (8 * n).

(** The 64-byte blocks of a list, in order (a last shorter one too). *)
Fixpoint blocks_fuel (fuel : nat) (l : list byte) : list (list byte) :=
  match fuel with
  | O => []
  | S fuel' =>
      match l with
      | [] => []
      | _ :: _ => firstn 64 l :: blocks_fuel fuel' (skipn 64 l)
      end
  end.

Definition blocks (l : list byte) : list (list byte) :=
  blocks_fuel (length l) l.

(** The digest of a whole message, computed in one pass over it. *)
Definition sha256 (msg : list byte) : list byte :=
  bytes_of_regs
    (fold_left compress (blocks (msg ++ padding (Z.of_nat (length msg)))) H0).

Definition hex_digit (n : N) : ascii :=
  if (n <? 10)%N then ascii_of_N (48 + n) else ascii_of_N (87 + n).

(** Lowercase hexadecimal, two digits per byte. *)
Fixpoint hex (l : list byte) : string :=
  match l with
  | [] => EmptyString
  | b :: r =>
      String (hex_digit (Byte.to_N b / 16))
        (String (hex_digit (Byte.to_N b mod 16)) (hex r))
  end.

Definition sha256_hex (msg : list byte) : string := hex (sha256 msg).

End SHA256.

(** ** The hash object of [hashlib]: [sha256()], [update], [hexdigest] *)

Record sha256_obj : Type := {
  chain : SHA256.regs;     (* chaining value after the blocks consumed so far *)
  pending : list byte;     (* bytes not yet forming a block, fewer than 64 *)
  total : Z                (* bytes received so far *)
}.

Definition sha256_new : sha256_obj :=
  {| chain := SHA256.H0; pending := []; total := 0 |}.

Definition feed (s : sha256_obj) (b : byte) : sha256_obj :=
  let buf := pending s ++ [b] in
  if Nat.eqb (length buf) 64
  then {| chain := SHA256.compress (chain s) buf; pending := []; total := total s + 1 |}
  else {| chain := chain s; pending := buf; total := total s + 1 |}.

Definition update (s : sha256_obj) (data : list byte) : sha256_obj :=
  fold_left feed data s.

Definition hexdigest (s : sha256_obj) : string :=
  SHA256.hex
    (SHA256.bytes_of_regs
       (fold_left SHA256.compress
          (SHA256.blocks (pending s ++ SHA256.padding (total s))) (chain s))).

(** What a hash object holds after it has received the message [m]. *)
Definition absorbed (s : sha256_obj) (m : list byte) : Prop :=
  exists bs : list (list byte),
    Forall (fun b => length b = 64%nat) bs /\
    m = concat bs ++ pending s /\
    chain s = fold_left SHA256.compress bs SHA256.H0 /\
    (length (pending s) < 64)%nat /\
    total s = Z.of_nat (length m).

Definition bytes_of_string (s : string) : list byte :=
  map byte_of_ascii (list_ascii_of_string s).

(** ** Files *)

(** A file opened with [open(path, 'rb')]: the bytes from the current
    position on.  [f.read(n)] returns at most [n] of them and advances. *)
Definition read (n : nat) (f : list byte) : list byte * list byte :=
  (firstn n f, skipn n f).

Definition inspect {A : Type} (a : A) : { b : A | a = b } := exist _ a eq_refl.

(** [for byte_block in iter(lambda: f.read(size), b""):
         sha256_hash.update(byte_block)]
    The iteration stops at the first empty block, the sentinel. *)
Equations? hash_loop (size : nat) (f : list byte) (sha256_hash : sha256_obj)
  : sha256_obj by wf (length f) lt :=
  hash_loop size f sha256_hash with inspect (read size f) := {
    | exist _ ([], _) _ => sha256_hash
    | exist _ (byte_block, f') e =>
        hash_loop size f' (update sha256_hash byte_block)
  }.
Proof.
  destruct size as [|n]; [discriminate|].
  destruct f as [|x f]; [discriminate|].
  rewrite length_skipn. simpl. lia.
Defined.

(** The world outside the database: the files on disk, the clock read as
    [datetime.now().strftime('%Y-%m-%d %H:%M:%S')], and the bytes that
    FPDF's [output] writes for the sample document at this moment. *)
Record World : Type := {
  files : gmap string (list byte);
  now : string;
  fpdf_output : list byte
}.

(** [os.path.exists] *)
Definition path_exists (w : World) (path : string) : bool :=
  bool_decide (is_Some (files w !! path)).

(** [_calculate_file_hash]: SHA-256 of a file, read in blocks of 4096. *)
Definition _calculate_file_hash (w : World) (file_path : string) : result string :=
  match files w !! file_path with
  | None => Raise FileNotFoundError
  | Some f => Ok (hexdigest (hash_loop 4096 f sha256_new))
  end.

(** [create_sample_pdf]: writes the sample document and returns its name. *)
Definition create_sample_pdf (w : World) (filename : string) : World * string :=
  ({| files := <[filename := fpdf_output w]> (files w);
      now := now w;
      fpdf_output := fpdf_output w |},
   filename).

(** [os.remove] of a path that exists. *)
Definition os_remove (w : World) (path : string) : World :=
  {| files := delete path (files w); now := now w; fpdf_output := fpdf_output w |}.

(** ** The database *)

(** A row of table [papers], a field for each column; a column that may
    hold NULL is an option. *)
Module Paper.
Record t : Type := {
  id : Z;
  title : string;
  authors : string;
  abstract : option string;
  publication_date : option string;
  category : option string;
  file_path : option string;
  file_hash : option string;
  upload_date : string;
  keywords : option string
}.
End Paper.

(** A row of the full-text table [papers_fts]: the text indexed under a
    rowid. *)
Record FtsRow : Type := {
  rowid : Z;
  fts_title : string;
  fts_authors : string;
  fts_abstract : option string;
  fts_keywords : option string
}.

(** The virtual table [papers_fts] with the triggers that feed it.  The
    source creates the triggers only after the table, in one [try] block,
    and never drops any of them. *)
Record FtsIndex : Type := {
  fts_rows : list FtsRow;
  papers_ai : bool;        (* trigger AFTER INSERT ON papers *)
  papers_ad : bool;        (* trigger AFTER DELETE ON papers *)
  papers_au : bool         (* trigger AFTER UPDATE ON papers *)
}.

(** The database file.  [papers] is kept in rowid order; a table that was
    never created and an empty one are not told apart, since
    [_initialize_database] creates [papers] before anything reads it. *)
Record Database : Type := {
  papers : list Paper.t;
  sqlite_sequence : Z;               (* AUTOINCREMENT: the largest id given so far *)
  papers_fts : option FtsIndex       (* None: no such table *)
}.

Definition empty_database : Database :=
  {| papers := []; sqlite_sequence := 0; papers_fts := None |}.

(** What the SQLite build decides, not the repository. *)
Class Engine : Type := {
  (* is the FTS5 module compiled in? *)
  fts5 : bool;
  (* [papers_fts MATCH ?]: the rows a query text selects, or [None] when the
     engine rejects the text as no FTS5 query *)
  fts5_match : string -> option (FtsRow -> bool);
  (* [strftime('%Y', text)]: NULL when the text is no date *)
  strftime_Y : string -> option string
}.

(** *** LIKE *)

(** SQLite reads the operands of LIKE as C strings: up to the first NUL. *)
Fixpoint c_str (s : string) : string :=
  match s with
  | EmptyString => EmptyString
  | String c r => if Ascii.eqb c zero then EmptyString else String c (c_str r)
  end.

(** Lower case of the letters A to Z; LIKE folds no other character. *)
Definition lower (c : ascii) : ascii :=
  let n := N_of_ascii c in
  if ((65 <=? n) && (n <=? 90))%N then ascii_of_N (n + 32) else c.

(** The pattern language of LIKE: [%] stands for any run of characters,
    [_] for any one character, every other character for itself up to the
    case of ASCII letters. *)
Fixpoint like_match (pattern : string) : string -> bool :=
  match pattern with
  | EmptyString => fun s => match s with EmptyString => true | String _ _ => false end
  | String c pattern' =>
      if Ascii.eqb c "%" then
        fix any_run (s : string) : bool :=
          like_match pattern' s
          || match s with EmptyString => false | String _ s' => any_run s' end
      else if Ascii.eqb c "_" then
        fun s => match s with EmptyString => false | String _ s' => like_match pattern' s' end
      else
        fun s =>
          match s with
          | EmptyString => false
          | String d s' => Ascii.eqb (lower c) (lower d) && like_match pattern' s'
          end
  end.

(** [text LIKE pattern] on two non-NULL texts. *)
Definition sqlite_like (text pattern : string) : bool :=
  like_match (c_str pattern) (c_str text).

(** [column LIKE pattern] in a WHERE clause: NULL selects nothing. *)
Definition like_column (column : option string) (pattern : string) : bool :=
  match column with
  | Some text => sqlite_like text pattern
  | None => false
  end.

(** *** The words of the specification about text *)

Fixpoint lower_string (s : string) : string :=
  match s with
  | EmptyString => EmptyString
  | String c r => String (lower c) (lower_string r)
  end.

(** "starts with": [prefix] is at the start of [s], character by character. *)
Definition starts_with (prefix s : string) : bool := String.prefix prefix s.


(** The same two up to the case of the letters A to Z. *)
Definition starts_with_nocase (prefix s : string) : bool :=
  starts_with (lower_string prefix) (lower_string s).

(** A text that LIKE reads as itself: no [%], no [_], no NUL. *)
Fixpoint plain (s : string) : bool :=
  match s with
  | EmptyString => true
  | String c r =>
      negb (Ascii.eqb c "%") && negb (Ascii.eqb c "_") && negb (Ascii.eqb c zero)
      && plain r
  end.

(** *** INSERT INTO papers *)

Definition max_id (rows : list Paper.t) : Z :=
  fold_right (fun r m => Z.max (Paper.id r) m) 0 rows.

(** A UNIQUE column: NULL never conflicts. *)
Definition unique_free (column : Paper.t -> option string) (v : option string)
    (rows : list Paper.t) : bool :=
  match v with
  | Some x => negb (existsb (fun r => bool_decide (column r = Some x)) rows)
  | None => true
  end.

(** The two UNIQUE constraints of table [papers]. *)
Definition constraints_hold (path hash : option string) (rows : list Paper.t) : bool :=
  unique_free Paper.file_path path rows && unique_free Paper.file_hash hash rows.

(** Trigger [papers_ai], when it is installed. *)
Definition after_insert (new : Paper.t) (index : option FtsIndex) : option FtsIndex :=
  match index with
  | Some ix =>
      if papers_ai ix then
        Some {| fts_rows := fts_rows ix ++
                  [{| rowid := Paper.id new; fts_title := Paper.title new;
                      fts_authors := Paper.authors new;
                      fts_abstract := Paper.abstract new;
                      fts_keywords := Paper.keywords new |}];
                papers_ai := papers_ai ix; papers_ad := papers_ad ix;
                papers_au := papers_au ix |}
      else Some ix
  | None => None
  end.

(** The INSERT of [add_paper] followed by [cursor.lastrowid].  The id is one
    more than the largest ever used (AUTOINCREMENT); a 64-bit rowid that
    cannot grow, or a UNIQUE conflict, fails the statement and changes
    nothing. *)
Definition insert_paper (db : Database) (title authors : string)
    (abstract publication_date category file_path file_hash : option string)
    (upload_date : string) (keywords : option string) : result (Z * Database) :=
  let new_id := Z.max (sqlite_sequence db) (max_id (papers db)) + 1 in
  if Z.ltb 9223372036854775807 new_id then Raise OperationalError
  else if negb (constraints_hold file_path file_hash (papers db))
  then Raise IntegrityError
  else
    let new := {| Paper.id := new_id; Paper.title := title;
                  Paper.authors := authors; Paper.abstract := abstract;
                  Paper.publication_date := publication_date;
                  Paper.category := category; Paper.file_path := file_path;
                  Paper.file_hash := file_hash; Paper.upload_date := upload_date;
                  Paper.keywords := keywords |} in
    Ok (new_id,
        {| papers := papers db ++ [new];
           sqlite_sequence := new_id;
           papers_fts := after_insert new (papers_fts db) |}).

(** *** DELETE FROM papers WHERE title LIKE pattern *)

(** Trigger [papers_ad], when it is installed: for each deleted row,
    [DELETE FROM papers_fts WHERE rowid = old.id]. *)
Definition after_delete (old : list Paper.t) (index : option FtsIndex) : option FtsIndex :=
  match index with
  | Some ix =>
      if papers_ad ix then
        Some {| fts_rows :=
                  List.filter (fun f => negb (existsb (fun r => Z.eqb (rowid f) (Paper.id r)) old))
                         (fts_rows ix);
                papers_ai := papers_ai ix; papers_ad := papers_ad ix;
                papers_au := papers_au ix |}
      else Some ix
  | None => None
  end.

Definition delete_title_like (db : Database) (pattern : string) : Database :=
  let old := List.filter (fun r => sqlite_like (Paper.title r) pattern) (papers db) in
  {| papers := List.filter (fun r => negb (sqlite_like (Paper.title r) pattern)) (papers db);
     sqlite_sequence := sqlite_sequence db;
     papers_fts := after_delete old (papers_fts db) |}.

(** *** SELECT *)

(** A Python value in a result row. *)
Inductive value : Type :=
| VNone
| VInt (n : Z)
| VStr (s : string).

Definition opt_value (o : option string) : value :=
  match o with
  | Some s => VStr s
  | None => VNone
  end.

(** The three SELECT statements of [search_papers], with their bound
    parameters.  All three select the same nine columns of [papers p]. *)
Inductive Select : Type :=
| FtsMatch (query : string)
    (* JOIN papers_fts f ON p.id = f.rowid WHERE papers_fts MATCH ? *)
| LikeAny (p_title p_abstract p_authors p_keywords : string)
    (* WHERE (title LIKE ? OR abstract LIKE ? OR authors LIKE ? OR keywords LIKE ?) *)
| AllRows.
    (* WHERE 1=1 *)

(** The clauses [search_papers] appends, with their bound parameters. *)
Inductive Filter : Type :=
| CategoryEq (c : string)       (* AND p.category = ? *)
| AuthorsLike (pattern : string) (* AND p.authors LIKE ? *)
| YearEq (y : string).           (* AND strftime("%Y", p.publication_date) = ? *)

(** [cursor.description] of each of the three statements. *)
Definition columns : list string :=
  ["id"; "title"; "authors"; "abstract"; "publication_date";
   "category"; "file_path"; "upload_date"; "keywords"].

Definition select_row (p : Paper.t) : list value :=
  [VInt (Paper.id p); VStr (Paper.title p); VStr (Paper.authors p);
   opt_value (Paper.abstract p); opt_value (Paper.publication_date p);
   opt_value (Paper.category p); opt_value (Paper.file_path p);
   VStr (Paper.upload_date p); opt_value (Paper.keywords p)].

Section WithEngine.

Context {E : Engine}.

(** The rows of the statement before the appended clauses.  The join gives
    a paper once for each matching index row that carries its id. *)
Definition base_rows (db : Database) (s : Select) : result (list Paper.t) :=
  match s with
  | FtsMatch query =>
      match papers_fts db with
      | None => Raise OperationalError           (* no such table: papers_fts *)
      | Some ix =>
          match fts5_match query with
          | None => Raise OperationalError       (* the text is no FTS5 query *)
          | Some m =>
              Ok (flat_map
                    (fun p =>
                       map (fun _ => p)
                           (List.filter (fun f => Z.eqb (Paper.id p) (rowid f) && m f) (fts_rows ix)))
                    (papers db))
          end
      end
  | LikeAny p_title p_abstract p_authors p_keywords =>
      Ok (List.filter
            (fun p =>
               sqlite_like (Paper.title p) p_title
               || like_column (Paper.abstract p) p_abstract
               || sqlite_like (Paper.authors p) p_authors
               || like_column (Paper.keywords p) p_keywords)
            (papers db))
  | AllRows => Ok (papers db)
  end.

(** One appended clause on one row; a NULL comparison selects nothing. *)
Definition filter_holds (f : Filter) (p : Paper.t) : bool :=
  match f with
  | CategoryEq c => bool_decide (Paper.category p = Some c)
  | AuthorsLike pattern => sqlite_like (Paper.authors p) pattern
  | YearEq y =>
      match Paper.publication_date p with
      | Some d =>
          match strftime_Y d with
          | Some y' => String.eqb y' y
          | None => false
          end
      | None => false
      end
  end.

(** [cursor.execute(sql, params)] then [cursor.fetchall()]. *)
Definition execute_select (db : Database) (s : Select) (fs : list Filter)
  : result (list (list value)) :=
  match base_rows db s with
  | Ok rows => Ok (map select_row (List.filter (fun p => forallb (fun f => filter_holds f p) fs) rows))
  | Raise e => Raise e
  end.

(** ** The repository: the methods of [ResearchPaperRepository] *)

(** [try: body except sqlite3.OperationalError: handler] *)
Definition try_except_operational {A : Type} (body handler : result A) : result A :=
  match body with
  | Raise OperationalError => handler
  | other => other
  end.

(** An optional argument that passes [if x:]. *)
Definition given (x : option string) : option string :=
  if truthy x then x else None.

(** [CREATE VIRTUAL TABLE IF NOT EXISTS papers_fts USING fts5(...)] *)
Definition create_papers_fts (db : Database) : result Database :=
  match papers_fts db with
  | Some _ => Ok db
  | None =>
      if fts5 then
        Ok {| papers := papers db;
              sqlite_sequence := sqlite_sequence db;
              papers_fts := Some {| fts_rows := []; papers_ai := false;
                                    papers_ad := false; papers_au := false |} |}
      else Raise OperationalError                (* no such module: fts5 *)
  end.

Definition on_index (f : FtsIndex -> FtsIndex) (db : Database) : Database :=
  {| papers := papers db;
     sqlite_sequence := sqlite_sequence db;
     papers_fts := option_map f (papers_fts db) |}.

(** [CREATE TRIGGER IF NOT EXISTS papers_ai / papers_ad / papers_au] *)
Definition create_papers_ai : Database -> Database :=
  on_index (fun ix => {| fts_rows := fts_rows ix; papers_ai := true;
                         papers_ad := papers_ad ix; papers_au := papers_au ix |}).
Definition create_papers_ad : Database -> Database :=
  on_index (fun ix => {| fts_rows := fts_rows ix; papers_ai := papers_ai ix;
                         papers_ad := true; papers_au := papers_au ix |}).
Definition create_papers_au : Database -> Database :=
  on_index (fun ix => {| fts_rows := fts_rows ix; papers_ai := papers_ai ix;
                         papers_ad := papers_ad ix; papers_au := true |}).

(** [_initialize_database], on the database file that [connect] opened.
    [CREATE TABLE IF NOT EXISTS papers] keeps the rows there are.  The four
    statements of the [try] block run in order; the first one that raises
    [OperationalError] ends the block, and the note is printed. *)
Definition _initialize_database (db : Database) : result Database :=
  try_except_operational
    (match create_papers_fts db with
     | Ok db1 => Ok (create_papers_au (create_papers_ad (create_papers_ai db1)))
     | Raise e => Raise e
     end)
    (Ok db).

(** [clear_test_data] *)
Definition clear_test_data (w : World) (db : Database) : World * Database :=
  let db' := delete_title_like db "Deep Learning for%" in
  let w' := if path_exists w "sample_paper.pdf"
            then os_remove w "sample_paper.pdf" else w in
  (w', db').

(** [SELECT id FROM papers WHERE file_hash = ?] then [fetchone()]: is
    there such a row? *)
Definition hash_stored (db : Database) (h : string) : bool :=
  existsb (fun r => bool_decide (Paper.file_hash r = Some h)) (papers db).

(** [add_paper].  The outcome is the returned id, [None] for a paper that
    is there already, or the exception raised; with it the world and the
    database the call leaves. *)
Definition add_paper (w : World) (db : Database) (title authors : string)
    (file_path abstract publication_date category keywords : option string)
    (create_sample_if_missing : bool)
  : result (option Z) * World * Database :=
  match given file_path with
  | Some path =>
      let located : result (World * string) :=
        if negb (path_exists w path) then
          if create_sample_if_missing then Ok (create_sample_pdf w path)
          else Raise FileNotFoundError
        else Ok (w, path) in
      match located with
      | Raise e => (Raise e, w, db)
      | Ok (w1, path1) =>
          match _calculate_file_hash w1 path1 with
          | Raise e => (Raise e, w1, db)
          | Ok hash =>
              if hash_stored db hash then (Ok None, w1, db)
              else
                match insert_paper db title authors abstract publication_date
                        category (Some path1) (Some hash) (now w1) keywords with
                | Ok (paper_id, db') => (Ok (Some paper_id), w1, db')
                | Raise e => (Raise e, w1, db)
                end
          end
      end
  | None =>
      match insert_paper db title authors abstract publication_date
              category None None (now w) keywords with
      | Ok (paper_id, db') => (Ok (Some paper_id), w, db')
      | Raise e => (Raise e, w, db)
      end
  end.

(** [dict(pairs)]: a later pair replaces an earlier one with its key. *)
Definition dict (pairs : list (string * value)) : gmap string value :=
  fold_left (fun d kv => <[fst kv := snd kv]> d) pairs ∅.

(** The dictionary [search_papers] makes of a row. *)
Definition paper_dict (p : Paper.t) : gmap string value :=
  dict (combine columns (select_row p)).

(** [search_papers], the base statement: [if query: try: ... except
    sqlite3.OperationalError: ... else: ...].  The [try] block only builds
    the text and the parameters of the statement. *)
Definition base_statement (query : option string) : result Select :=
  match given query with
  | Some q =>
      let pattern := String.append "%" (String.append q "%") in
      try_except_operational
        (Ok (FtsMatch q))
        (Ok (LikeAny pattern pattern pattern pattern))
  | None => Ok AllRows
  end.

(** [search_papers], the clauses appended under [# Add filters]. *)
Definition added_filters (category author year : option string) : list Filter :=
  match given category with Some c => [CategoryEq c] | None => [] end ++
  match given author with
  | Some a => [AuthorsLike (String.append "%" (String.append a "%"))]
  | None => []
  end ++
  match given year with Some y => [YearEq y] | None => [] end.

(** [search_papers] *)
Definition search_papers (db : Database) (query category author year : option string)
  : result (list (gmap string value)) :=
  match base_statement query with
  | Raise e => Raise e
  | Ok sql =>
      match execute_select db sql (added_filters category author year) with
      | Raise e => Raise e
      | Ok rows => Ok (map (fun row => dict (combine columns row)) rows)
      end
  end.

(** [get_all_categories]:
    [SELECT DISTINCT category FROM papers WHERE category IS NOT NULL], in
    an order the engine chooses. *)
Definition get_all_categories (db : Database) : list string :=
  remove_dups (omap Paper.category (papers db)).

(** The databases a repository can hold: a new file once initialized, and
    what [_initialize_database] (on opening the file again), [add_paper]
    and [clear_test_data] make of one.  [search_papers] and
    [get_all_categories] return no database: they change none. *)
Inductive reachable : Database -> Prop :=
| reach_new (db : Database) :
    _initialize_database empty_database = Ok db -> reachable db
| reach_open (db db' : Database) :
    reachable db -> _initialize_database db = Ok db' -> reachable db'
| reach_add (db : Database) (w : World) (title authors : string)
    (file_path abstract publication_date category keywords : option string)
    (create_sample_if_missing : bool) :
    reachable db ->
    reachable (snd (add_paper w db title authors file_path abstract
                      publication_date category keywords create_sample_if_missing))
| reach_clear (db : Database) (w : World) :
    reachable db -> reachable (snd (clear_test_data w db)).

(** *** What a search selects, in the words of the specification *)


(** The year that [strftime] extracts from the publication date. *)
Definition year_of (p : Paper.t) : option string :=
  match Paper.publication_date p with
  | Some d => strftime_Y d
  | None => None
  end.




End WithEngine.

(** The three parts of what [add_paper] leaves. *)
Definition outcome_of {A : Type} (r : result A * World * Database) : result A := fst (fst r).
Definition world_of {A : Type} (r : result A * World * Database) : World := snd (fst r).
Definition database_of {A : Type} (r : result A * World * Database) : Database := snd r.

(** The file [add_paper] hashes, with the world it leaves: the one at the
    path, or the sample written there when asked to; none otherwise. *)
Definition supplied_file (w : World) (path : string) (create : bool)
  : option (World * list byte) :=
  match files w !! path with
  | Some content => Some (w, content)
  | None => if create then Some (fst (create_sample_pdf w path), fpdf_output w) else None
  end.

(** ** Sample data for the examples *)

(** An engine with FTS5 whose MATCH selects the rows with the query text
    inside the indexed title, and whose [strftime] reads the year off a
    text that starts with four characters and a dash.  It stands in for
    SQLite in the examples only. *)
Definition sample_engine : Engine :=
  {| fts5 := true;
     fts5_match := fun q =>
       Some (fun f => sqlite_like (fts_title f) (String.append "%" (String.append q "%")));
     strftime_Y := fun d =>
       match get 4 d with
       | Some "-"%char => Some (substring 0 4 d)
       | _ => None
       end |}.

(** The same engine built without the FTS5 module. *)
Definition sample_engine_no_fts5 : Engine :=
  {| fts5 := false;
     fts5_match := @fts5_match sample_engine;
     strftime_Y := @strftime_Y sample_engine |}.

(** Two files with the same three bytes, and a third one. *)
Definition sample_world : World :=
  {| files := <["a.pdf" := bytes_of_string "ABC"]>
                (<["b.pdf" := bytes_of_string "ABC"]>
                   (<["c.pdf" := bytes_of_string "ABD"]> ∅));
     now := "2024-01-02 03:04:05";
     fpdf_output := bytes_of_string "%PDF-1.3 sample" |}.

(** The same paths after the bytes of [a.pdf] were changed. *)
Definition sample_world_changed : World :=
  {| files := <["a.pdf" := bytes_of_string "ABD"]> (files sample_world);
     now := "2024-02-03 04:05:06";
     fpdf_output := fpdf_output sample_world |}.

(** A database just initialized by an engine with FTS5. *)
Definition fresh_database : Database :=
  {| papers := [];
     sqlite_sequence := 0;
     papers_fts := Some {| fts_rows := []; papers_ai := true;
                           papers_ad := true; papers_au := true |} |}.

(** The paper of the demonstration in [main], stored from [a.pdf]. *)
Definition sample_paper : Paper.t :=
  {| Paper.id := 1;
     Paper.title := "Deep Learning for X";
     Paper.authors := "John Smith, Jane Doe";
     Paper.abstract := Some "This paper explores deep learning.";
     Paper.publication_date := Some "2023-05-15";
     Paper.category := Some "Machine Learning";
     Paper.file_path := Some "a.pdf";
     Paper.file_hash := Some (SHA256.sha256_hex (bytes_of_string "ABC"));
     Paper.upload_date := "2024-01-02 03:04:05";
     Paper.keywords := Some "deep learning, nlp" |}.

Definition sample_index : FtsIndex :=
  {| fts_rows := [{| rowid := 1;
                     fts_title := "Deep Learning for X";
                     fts_authors := "John Smith, Jane Doe";
                     fts_abstract := Some "This paper explores deep learning.";
                     fts_keywords := Some "deep learning, nlp" |}];
     papers_ai := true; papers_ad := true; papers_au := true |}.

(** [fresh_database] after the sample paper was added. *)
Definition sample_database : Database :=
  {| papers := [sample_paper]; sqlite_sequence := 1; papers_fts := Some sample_index |}.

(** The same rows in a database whose engine has no FTS5. *)
Definition sample_database_no_fts5 : Database :=
  {| papers := [sample_paper]; sqlite_sequence := 1; papers_fts := None |}.

(** The sample call of [add_paper] on a path. *)
Definition add_sample (w : World) (db : Database) (path : string) (create : bool)
  : result (option Z) * World * Database :=
  add_paper w db "Deep Learning for X" "John Smith, Jane Doe" (Some path)
    (Some "This paper explores deep learning.") (Some "2023-05-15")
    (Some "Machine Learning") (Some "deep learning, nlp") create.

(** [fresh_database] after a paper without file was added. *)
Definition sample_database_no_file : Database :=
  database_of (add_paper sample_world fresh_database "Reading notes" "Jane Doe"
                 None None None None None false).


(** A paper whose title has the prefix of [clear_test_data] in lower case. *)
Definition lowercase_paper : Paper.t :=
  {| Paper.id := 1;
     Paper.title := "deep learning for cats";
     Paper.authors := "Jane Doe";
     Paper.abstract := None;
     Paper.publication_date := None;
     Paper.category := None;
     Paper.file_path := None;
     Paper.file_hash := None;
     Paper.upload_date := "2024-01-02 03:04:05";
     Paper.keywords := None |}.

Definition lowercase_database : Database :=
  {| papers := [lowercase_paper]; sqlite_sequence := 1; papers_fts := None |}.

(** ** The index in step with the table, and the demonstration of [main] *)

(** The row that trigger [papers_ai] writes for a paper: its id and its
    four text columns. *)
Definition indexed (p : Paper.t) : FtsRow :=
  {| rowid := Paper.id p;
     fts_title := Paper.title p;
     fts_authors := Paper.authors p;
     fts_abstract := Paper.abstract p;
     fts_keywords := Paper.keywords p |}.

(** The full-text table with its three triggers installed and one row for
    each paper, in table order. *)
Definition index_of (rows : list Paper.t) : FtsIndex :=
  {| fts_rows := map indexed rows;
     papers_ai := true; papers_ad := true; papers_au := true |}.

(** The ids of the table grow along it (rowid order). *)
Definition ids_increasing (rows : list Paper.t) : Prop :=
  StronglySorted Z.lt (map Paper.id rows).

(** The text columns of the arguments of [add_paper] as a result shows
    them. *)
Definition shows (d : gmap string value) (title authors : string)
    (abstract publication_date category keywords : option string) : Prop :=
  d !! "title" = Some (VStr title) /\
  d !! "authors" = Some (VStr authors) /\
  d !! "abstract" = Some (opt_value abstract) /\
  d !! "publication_date" = Some (opt_value publication_date) /\
  d !! "category" = Some (opt_value category) /\
  d !! "keywords" = Some (opt_value keywords).

(** How [main] ends: it returns, or one of these propagates out of it
    (after [repo.close()] in the [finally] block). *)
Inductive main_outcome : Type :=
| Returned
| Propagated (e : exn)       (* an exception of [search_papers] or of the constructor *)
| KeyError                   (* [paper[key]] on a missing key *)
| TypeError.                 (* [paper['abstract'][:100]] on [None] or a number *)

(** The body of [for paper in results:] in [main]: the four values read
    from the dictionary, the abstract sliced. *)
Definition print_paper (paper : gmap string value) : main_outcome :=
  match paper !! "id", paper !! "title", paper !! "authors" with
  | Some _, Some _, Some _ =>
      match paper !! "abstract" with
      | Some (VStr _) => Returned
      | Some _ => TypeError
      | None => KeyError
      end
  | _, _, _ => KeyError
  end.

(** The loop: the first paper that cannot be printed ends it. *)
Fixpoint print_papers (results : list (gmap string value)) : main_outcome :=
  match results with
  | [] => Returned
  | paper :: rest =>
      match print_paper paper with
      | Returned => print_papers rest
      | raised => raised
      end
  end.

Section Demonstration.

Context {E : Engine}.

(** [main], on the world and the database file it finds.  What it prints
    is not kept.  The inner [try] catches every exception of [add_paper];
    the [finally] block closes the connection whatever happened. *)
Definition main (w : World) (db : Database) : main_outcome * World * Database :=
  match _initialize_database db with
  | Raise e => (Propagated e, w, db)
  | Ok db0 =>
      let cleared := clear_test_data w db0 in
      let added :=
        add_paper (fst cleared) (snd cleared)
          "Deep Learning for Natural Language Processing"
          "John Smith, Jane Doe"
          (Some "sample_paper.pdf")
          (Some "This paper explores deep learning techniques for NLP tasks...")
          (Some "2023-05-15")
          (Some "Machine Learning")
          (Some "deep learning, nlp, transformers")
          true in
      match search_papers (database_of added) (Some "deep learning")
              (Some "Machine Learning") None None with
      | Raise e => (Propagated e, world_of added, database_of added)
      | Ok results => (print_papers results, world_of added, database_of added)
      end
  end.

(** The databases a repository holds when the engine has FTS5 or not: the
    index is there exactly with FTS5, and then holds the row of each
    paper; ids grow along the table and none exceeds the sequence; no two
    papers share a path or a fingerprint. *)
Definition consistent (db : Database) : Prop :=
  papers_fts db = (if fts5 then Some (index_of (papers db)) else None) /\
  ids_increasing (papers db) /\
  (forall p : Paper.t, In p (papers db) -> 1 <= Paper.id p <= sqlite_sequence db) /\
  NoDup (omap Paper.file_path (papers db)) /\
  NoDup (omap Paper.file_hash (papers db)).

End Demonstration.

(** A digit or one of the letters a to f. *)
Definition is_lower_hex (c : ascii) : bool :=
  let n := N_of_ascii c in
  (((48 <=? n) && (n <=? 57)) || ((97 <=? n) && (n <=? 102)))%N.

(** ** Hashing lemmas *)

Section Hashing.

Import SHA256.

Lemma blocks_fuel_any (f1 f2 : nat) (l : list byte) :
  (length l <= f1)%nat -> (length l <= f2)%nat ->
  blocks_fuel f1 l = blocks_fuel f2 l.
Proof.
  revert f2 l. induction f1 as [|f1 IH]; intros f2 l H1 H2.
  - destruct l; [|simpl in H1; lia]. destruct f2; reflexivity.
  - destruct f2 as [|f2].
    + destruct l; [reflexivity|simpl in H2; lia].
    + destruct l as [|x l]; [reflexivity|].
      cbn [blocks_fuel]. f_equal.
      apply IH; rewrite length_skipn; simpl in *; lia.
Qed.

Lemma blocks_cons_block (b r : list byte) :
  length b = 64%nat -> blocks (b ++ r) = b :: blocks r.
Proof.
  intros Hb. unfold blocks.
  destruct b as [|x b]; [discriminate|].
  change ((x :: b) ++ r) with (x :: (b ++ r)).
  cbn [length blocks_fuel].
  change (x :: (b ++ r)) with ((x :: b) ++ r).
  rewrite firstn_app, skipn_app, Hb, Nat.sub_diag.
  rewrite firstn_all2 by lia. rewrite skipn_all2 by lia.
  cbn [firstn skipn]. rewrite !app_nil_r. cbn [app]. f_equal.
  apply blocks_fuel_any; rewrite ?length_app; lia.
Qed.

Lemma blocks_concat (bs : list (list byte)) (r : list byte) :
  Forall (fun b => length b = 64%nat) bs ->
  blocks (concat bs ++ r) = bs ++ blocks r.
Proof.
  induction 1 as [|b bs Hb _ IH]; [reflexivity|].
  cbn [concat]. rewrite <- app_assoc, blocks_cons_block by exact Hb.
  rewrite IH. reflexivity.
Qed.

Lemma absorbed_new : absorbed sha256_new [].
Proof.
  exists []. repeat split; simpl; try constructor; lia.
Qed.

Lemma absorbed_feed (s : sha256_obj) (m : list byte) (b : byte) :
  absorbed s m -> absorbed (feed s b) (m ++ [b]).
Proof.
  intros (bs & Hbs & Hm & Hc & Hlen & Htot). unfold feed.
  destruct (Nat.eqb (length (pending s ++ [b])) 64) eqn:E.
  - apply Nat.eqb_eq in E.
    exists (bs ++ [pending s ++ [b]]). cbn [chain pending total].
    repeat split.
    + apply Forall_app; split; [exact Hbs|]. constructor; [exact E|constructor].
    + rewrite concat_app. cbn [concat]. rewrite !app_nil_r, Hm, app_assoc.
      reflexivity.
    + rewrite fold_left_app, <- Hc. reflexivity.
    + simpl; lia.
    + rewrite Htot, length_app. simpl. lia.
  - apply Nat.eqb_neq in E. rewrite length_app in E. simpl in E.
    exists bs. cbn [chain pending total].
    repeat split; try assumption.
    + rewrite Hm, app_assoc. reflexivity.
    + rewrite length_app. simpl. lia.
    + rewrite Htot, length_app. simpl. lia.
Qed.

Lemma absorbed_update (data : list byte) :
  forall (s : sha256_obj) (m : list byte),
    absorbed s m -> absorbed (update s data) (m ++ data).
Proof.
  induction data as [|b data IH]; intros s m H.
  - rewrite app_nil_r. exact H.
  - unfold update. cbn [fold_left].
    replace (m ++ b :: data) with ((m ++ [b]) ++ data)
      by (rewrite <- app_assoc; reflexivity).
    apply IH, absorbed_feed, H.
Qed.

Lemma absorbed_hexdigest (s : sha256_obj) (m : list byte) :
  absorbed s m -> hexdigest s = sha256_hex m.
Proof.
  intros (bs & Hbs & Hm & Hc & _ & Htot).
  unfold hexdigest, sha256_hex, sha256. do 2 f_equal.
  rewrite Htot, Hc, <- fold_left_app. f_equal.
  rewrite Hm at 2. rewrite <- app_assoc.
  symmetry. apply blocks_concat, Hbs.
Qed.

Lemma update_app (s : sha256_obj) (a b : list byte) :
  update s (a ++ b) = update (update s a) b.
Proof. apply fold_left_app. Qed.

Lemma update_chunks (chunks : list (list byte)) :
  forall s : sha256_obj,
    fold_left update chunks s = update s (concat chunks).
Proof.
  induction chunks as [|c chunks IH]; intros s; [reflexivity|].
  cbn [fold_left concat]. rewrite IH, update_app. reflexivity.
Qed.

Lemma hash_loop_update (size : nat) (f : list byte) (s : sha256_obj) :
  (0 < size)%nat -> hash_loop size f s = update s f.
Proof.
  intros Hsize. funelim (hash_loop size f s).
  - destruct size; [lia|]. destruct f; [reflexivity|discriminate].
  - rewrite H by assumption.
    rewrite <- e', <- update_app, firstn_skipn. reflexivity.
Qed.

End Hashing.

(** ** Test vectors *)

Example sha256_abc :
  SHA256.sha256_hex (bytes_of_string "abc")
  = "ba7816bf8f01cfea414140de5dae2223b00361a396177a9cb410ff61f20015ad".
Proof. vm_compute. reflexivity. Qed.

Example sha256_empty :
  SHA256.sha256_hex []
  = "e3b0c44298fc1c149afbf4c8996fb92427ae41e4649b934ca495991b7852b855".
Proof. vm_compute. reflexivity. Qed.

Example sha256_two_blocks :
  hexdigest (update (update sha256_new (repeat x61 33)) (repeat x61 37))
  = "6bd5e5034855a11241f0dee8fc72850ffd9955b28347a86428b5fa19119f6ad0".
Proof. vm_compute. reflexivity. Qed.

Example hash_loop_abc :
  hexdigest (hash_loop 2 (bytes_of_string "abc") sha256_new)
  = "ba7816bf8f01cfea414140de5dae2223b00361a396177a9cb410ff61f20015ad".
Proof. vm_compute. reflexivity. Qed.


Example like_examples :
  sqlite_like "John Smith, Jane Doe" "%smith%" = true /\
  sqlite_like "John Smith" "%J_hn%" = true /\
  sqlite_like "John Smith" "%Jon%" = false /\
  sqlite_like "Deep Learning for NLP" "Deep Learning for%" = true /\
  sqlite_like "A Deep Learning for NLP" "Deep Learning for%" = false.
Proof. repeat split; reflexivity. Qed.

(** ** The Hashing Unit *)

Lemma update_is_sha256 (content : list byte) :
  hexdigest (update sha256_new content) = SHA256.sha256_hex content.
Proof.
  apply absorbed_hexdigest.
  apply (absorbed_update content sha256_new []), absorbed_new.
Qed.

Lemma calculate_file_hash_content (w : World) (path : string) (content : list byte) :
  files w !! path = Some content ->
  _calculate_file_hash w path = Ok (SHA256.sha256_hex content).
Proof.
  intros Hp. unfold _calculate_file_hash. rewrite Hp.
  rewrite hash_loop_update by lia. rewrite update_is_sha256. reflexivity.
Qed.

(** C6: the fingerprint that [_calculate_file_hash] computes, reading the
    file in blocks of 4096 bytes into a running SHA-256 object, is the
    lowercase hexadecimal SHA-256 digest of the whole content computed in
    one pass; feeding the content to the object under any partition into
    chunks gives the same fingerprint, and so does hashing any file with
    the same content again. *)
Theorem calculate_file_hash_sha256 (w : World) (file_path : string)
    (content : list byte) (chunks : list (list byte)) :
  files w !! file_path = Some content ->
  concat chunks = content ->
  _calculate_file_hash w file_path = Ok (SHA256.sha256_hex content) /\
  hexdigest (fold_left update chunks sha256_new) = SHA256.sha256_hex content /\
  (forall (w2 : World) (path2 : string),
      files w2 !! path2 = Some content ->
      _calculate_file_hash w2 path2 = _calculate_file_hash w file_path).
Proof.
  intros Hfile Hchunks.
  split; [apply calculate_file_hash_content, Hfile|]. split.
  - rewrite update_chunks, Hchunks. apply update_is_sha256.
  - intros w2 path2 H2.
    rewrite (calculate_file_hash_content _ _ _ H2).
    rewrite (calculate_file_hash_content _ _ _ Hfile). reflexivity.
Qed.

(** C6 on the sample files: [a.pdf] and [b.pdf] hold the same three bytes. *)
Lemma calculate_file_hash_sha256_witness :
  _calculate_file_hash sample_world "a.pdf"
    = Ok (SHA256.sha256_hex (bytes_of_string "ABC")) /\
  hexdigest (fold_left update [bytes_of_string "A"; bytes_of_string "BC"] sha256_new)
    = SHA256.sha256_hex (bytes_of_string "ABC") /\
  _calculate_file_hash sample_world "b.pdf" = _calculate_file_hash sample_world "a.pdf".
Proof.
  destruct (calculate_file_hash_sha256 sample_world "a.pdf" (bytes_of_string "ABC")
              [bytes_of_string "A"; bytes_of_string "BC"])
    as (H1 & H2 & H3).
  - vm_compute. reflexivity.
  - reflexivity.
  - split; [exact H1|]. split; [exact H2|].
    apply (H3 sample_world "b.pdf"). vm_compute. reflexivity.
Defined.

Example calculate_file_hash_ABC :
  _calculate_file_hash sample_world "a.pdf"
  = Ok "b5d4045c3f466fa91fe2cc6abe79232a1a57cdf104f7a26e716e0a1e2789df78".
Proof. vm_compute. reflexivity. Qed.

(** ** [add_paper] *)

Lemma path_exists_lookup (w : World) (path : string) :
  path_exists w path = true <-> is_Some (files w !! path).
Proof. unfold path_exists. apply bool_decide_eq_true. Qed.

Lemma path_exists_false (w : World) (path : string) :
  path_exists w path = false <-> files w !! path = None.
Proof.
  unfold path_exists. rewrite bool_decide_eq_false, eq_None_not_Some. reflexivity.
Qed.

Lemma supplied_file_lookup (w w1 : World) (path : string) (create : bool)
    (content : list byte) :
  supplied_file w path create = Some (w1, content) ->
  files w1 !! path = Some content.
Proof.
  unfold supplied_file. destruct (files w !! path) eqn:Hp.
  - intros [= <- <-]. exact Hp.
  - destruct create; [|discriminate]. intros [= <- <-].
    cbn. apply lookup_insert_eq.
Qed.

(** [add_paper] without a file: only the INSERT. *)
Lemma add_paper_no_file (w : World) (db : Database) (title authors : string)
    (file_path abstract publication_date category keywords : option string)
    (create : bool) :
  given file_path = None ->
  add_paper w db title authors file_path abstract publication_date category
    keywords create
  = match insert_paper db title authors abstract publication_date category
            None None (now w) keywords with
    | Ok (paper_id, db') => (Ok (Some paper_id), w, db')
    | Raise e => (Raise e, w, db)
    end.
Proof. intros Hg. unfold add_paper. rewrite Hg. reflexivity. Qed.

(** [add_paper] with a file, along the file that is hashed. *)
Lemma add_paper_with_file (w : World) (db : Database) (title authors : string)
    (file_path abstract publication_date category keywords : option string)
    (create : bool) (path : string) :
  given file_path = Some path ->
  add_paper w db title authors file_path abstract publication_date category
    keywords create
  = match supplied_file w path create with
    | None => (Raise FileNotFoundError, w, db)
    | Some (w1, content) =>
        if hash_stored db (SHA256.sha256_hex content) then (Ok None, w1, db)
        else
          match insert_paper db title authors abstract publication_date category
                  (Some path) (Some (SHA256.sha256_hex content)) (now w1) keywords with
          | Ok (paper_id, db') => (Ok (Some paper_id), w1, db')
          | Raise e => (Raise e, w1, db)
          end
    end.
Proof.
  intros Hg. unfold add_paper, supplied_file. rewrite Hg.
  destruct (files w !! path) as [content|] eqn:Hp.
  - assert (Hex : path_exists w path = true)
      by (apply path_exists_lookup; rewrite Hp; eauto).
    rewrite Hex. cbn [negb].
    rewrite (calculate_file_hash_content _ _ _ Hp). reflexivity.
  - assert (Hex : path_exists w path = false) by (apply path_exists_false, Hp).
    rewrite Hex. cbn [negb]. destruct create; [|reflexivity].
    cbn [create_sample_pdf fst].
    erewrite calculate_file_hash_content by (cbn; apply lookup_insert_eq).
    reflexivity.
Qed.

Lemma insert_paper_raises (db : Database) (title authors : string)
    (abstract publication_date category path hash : option string)
    (upload_date : string) (keywords : option string) (e : exn) :
  insert_paper db title authors abstract publication_date category path hash
    upload_date keywords = Raise e ->
  e = OperationalError \/ e = IntegrityError.
Proof.
  unfold insert_paper.
  destruct (Z.ltb _ _); [intros [= <-]; left; reflexivity|].
  destruct (constraints_hold _ _ _); cbn [negb]; [discriminate|].
  intros [= <-]. right. reflexivity.
Qed.

Lemma insert_paper_ok (db db' : Database) (title authors : string)
    (abstract publication_date category path hash : option string)
    (upload_date : string) (keywords : option string) (paper_id : Z) :
  insert_paper db title authors abstract publication_date category path hash
    upload_date keywords = Ok (paper_id, db') ->
  constraints_hold path hash (papers db) = true /\
  papers db' = papers db ++
    [{| Paper.id := paper_id; Paper.title := title; Paper.authors := authors;
        Paper.abstract := abstract; Paper.publication_date := publication_date;
        Paper.category := category; Paper.file_path := path;
        Paper.file_hash := hash; Paper.upload_date := upload_date;
        Paper.keywords := keywords |}].
Proof.
  unfold insert_paper.
  destruct (Z.ltb _ _); [discriminate|].
  destruct (constraints_hold _ _ _); cbn [negb]; [|discriminate].
  intros [= <- <-]. split; reflexivity.
Qed.

(** A call of [add_paper], by whether a file path is given: rewritten by
    [add_paper_with_file] or by [add_paper_no_file]. *)
Ltac add_paper_cases file_path path Hg :=
  destruct (given file_path) as [path|] eqn:Hg;
  [ rewrite ?(add_paper_with_file _ _ _ _ _ _ _ _ _ _ _ Hg)
  | rewrite ?(add_paper_no_file _ _ _ _ _ _ _ _ _ _ Hg) ].

(** What a call that stores a paper adds: one row, with no path and no
    hash, or with the path given and the fingerprint of the file there. *)
Lemma add_paper_stored (w w' : World) (db db' : Database) (title authors : string)
    (file_path abstract publication_date category keywords : option string)
    (create : bool) (paper_id : Z) :
  add_paper w db title authors file_path abstract publication_date category
    keywords create = (Ok (Some paper_id), w', db') ->
  exists row : Paper.t,
    papers db' = papers db ++ [row] /\ Paper.id row = paper_id /\
    ((given file_path = None /\ Paper.file_path row = None /\ Paper.file_hash row = None) \/
     (exists (path : string) (content : list byte),
         given file_path = Some path /\ files w' !! path = Some content /\
         hash_stored db (SHA256.sha256_hex content) = false /\
         Paper.file_path row = Some path /\
         Paper.file_hash row = Some (SHA256.sha256_hex content))).
Proof.
  add_paper_cases file_path path Hg.
  - destruct (supplied_file w path create) as [[w1 content]|] eqn:Hs; [|discriminate].
    destruct (hash_stored db _) eqn:Hdup; [discriminate|].
    destruct (insert_paper _ _ _ _ _ _ _ _ _ _) as [[i db1]|e] eqn:Hins; [|discriminate].
    intros [= <- <- <-]. apply insert_paper_ok in Hins as [_ Hrows].
    eexists. split; [exact Hrows|]. split; [reflexivity|]. right.
    exists path, content. cbn.
    repeat split; try reflexivity; try assumption.
    eapply supplied_file_lookup, Hs.
  - destruct (insert_paper _ _ _ _ _ _ _ _ _ _) as [[i db1]|e] eqn:Hins; [|discriminate].
    intros [= <- <- <-]. apply insert_paper_ok in Hins as [_ Hrows].
    eexists. split; [exact Hrows|]. split; [reflexivity|]. left.
    repeat split; reflexivity.
Qed.

(** A call that returns no id leaves the database as it was. *)
Lemma add_paper_not_stored (w : World) (db : Database) (title authors : string)
    (file_path abstract publication_date category keywords : option string)
    (create : bool) :
  (forall paper_id : Z,
      outcome_of (add_paper w db title authors file_path abstract publication_date
                    category keywords create) <> Ok (Some paper_id)) ->
  database_of (add_paper w db title authors file_path abstract publication_date
                 category keywords create) = db.
Proof.
  add_paper_cases file_path path Hg.
  - destruct (supplied_file w path create) as [[w1 content]|]; [|reflexivity].
    destruct (hash_stored db _); [reflexivity|].
    destruct (insert_paper _ _ _ _ _ _ _ _ _ _) as [[i db1]|e]; [|reflexivity].
    intros Hno. exfalso. apply (Hno i). reflexivity.
  - destruct (insert_paper _ _ _ _ _ _ _ _ _ _) as [[i db1]|e]; [|reflexivity].
    intros Hno. exfalso. apply (Hno i). reflexivity.
Qed.



(** C7: an [add_paper] call that raises leaves the database as it was: no
    new row in [papers], no new row in [papers_fts]. *)
Theorem failed_add_leaves_store (w : World) (db : Database) (title authors : string)
    (file_path abstract publication_date category keywords : option string)
    (create_sample_if_missing : bool) (e : exn) :
  outcome_of (add_paper w db title authors file_path abstract publication_date
                category keywords create_sample_if_missing) = Raise e ->
  database_of (add_paper w db title authors file_path abstract publication_date
                 category keywords create_sample_if_missing) = db.
Proof.
  intros Hraise. apply add_paper_not_stored. intros i Hi. congruence.
Qed.

Lemma hash_not_stored_filter (db : Database) (h : string) :
  hash_stored db h = false ->
  List.filter (fun p => bool_decide (Paper.file_hash p = Some h)) (papers db) = [].
Proof.
  unfold hash_stored. induction (papers db) as [|p rows IH]; [reflexivity|].
  cbn [existsb List.filter]. intros Hex. apply orb_false_iff in Hex as [Hp Hrows].
  rewrite Hp. apply IH, Hrows.
Qed.

Lemma hash_stored_true (db : Database) (h : string) :
  hash_stored db h = true <->
  exists p : Paper.t, In p (papers db) /\ Paper.file_hash p = Some h.
Proof.
  unfold hash_stored. rewrite existsb_exists. split.
  - intros (p & Hin & Hp). exists p. split; [exact Hin|].
    apply bool_decide_eq_true in Hp. exact Hp.
  - intros (p & Hin & Hp). exists p. split; [exact Hin|].
    apply bool_decide_eq_true. exact Hp.
Qed.

(** C2: [add_paper] returns [None], the duplicate marker, exactly when a
    stored paper already has the fingerprint of the file supplied, and then
    inserts nothing.  The decision is by content: after a call that stored
    a file, a call with any path whose file has the same bytes returns the
    marker and the database keeps exactly one paper with that fingerprint;
    a call on the path of a stored paper, with bytes whose fingerprint no
    stored paper has, is not reported as a duplicate (the INSERT is
    attempted, and fails on the unique path). *)
Theorem add_paper_duplicate_by_content (w : World) (db : Database)
    (title authors : string)
    (file_path abstract publication_date category keywords : option string)
    (create_sample_if_missing : bool) :
  let r := add_paper w db title authors file_path abstract publication_date
             category keywords create_sample_if_missing in
  (outcome_of r = Ok None
   <-> exists (path : string) (content : list byte),
         given file_path = Some path /\
         files (world_of r) !! path = Some content /\
         exists p : Paper.t,
           In p (papers db) /\
           Paper.file_hash p = Some (SHA256.sha256_hex content)) /\
  (outcome_of r = Ok None -> database_of r = db) /\
  (forall (paper_id : Z) (path : string) (content : list byte),
      given file_path = Some path ->
      outcome_of r = Ok (Some paper_id) ->
      files (world_of r) !! path = Some content ->
      forall (w2 : World) (title2 authors2 : string)
             (file_path2 abstract2 publication_date2 category2 keywords2 : option string)
             (create2 : bool) (path2 : string),
        given file_path2 = Some path2 ->
        files w2 !! path2 = Some content ->
        add_paper w2 (database_of r) title2 authors2 file_path2 abstract2
          publication_date2 category2 keywords2 create2
        = (Ok None, w2, database_of r) /\
        length (List.filter (fun p => bool_decide
                          (Paper.file_hash p = Some (SHA256.sha256_hex content)))
                  (papers (database_of r))) = 1%nat) /\
  (forall (path : string) (content : list byte) (stored : Paper.t),
      given file_path = Some path ->
      files w !! path = Some content ->
      In stored (papers db) ->
      Paper.file_path stored = Some path ->
      hash_stored db (SHA256.sha256_hex content) = false ->
      outcome_of r <> Ok None /\
      (outcome_of r = Raise IntegrityError \/ outcome_of r = Raise OperationalError)).
Proof.
  intros r. subst r. split; [split|split; [|split]].
  - (* the marker comes from a stored fingerprint *)
    add_paper_cases file_path path Hg.
    + destruct (supplied_file w path create_sample_if_missing)
        as [[w1 content]|] eqn:Hs; [|discriminate].
      destruct (hash_stored db _) eqn:Hdup.
      * intros _. exists path, content. split; [reflexivity|].
        split; [eapply supplied_file_lookup, Hs|]. apply hash_stored_true, Hdup.
      * destruct (insert_paper _ _ _ _ _ _ _ _ _ _) as [[i db1]|e]; discriminate.
    + destruct (insert_paper _ _ _ _ _ _ _ _ _ _) as [[i db1]|e]; discriminate.
  - (* a stored fingerprint gives the marker *)
    intros (path & content & Hg & Hfile & Hp).
    apply hash_stored_true in Hp. revert Hfile.
    rewrite (add_paper_with_file _ _ _ _ _ _ _ _ _ _ _ Hg).
    destruct (supplied_file w path create_sample_if_missing)
      as [[w1 content1]|] eqn:Hs.
    + apply supplied_file_lookup in Hs.
      destruct (hash_stored db (SHA256.sha256_hex content1)) eqn:Hdup;
        [reflexivity|].
      destruct (insert_paper _ _ _ _ _ _ _ _ _ _) as [[i db1]|e];
        cbn; intros Hfile; congruence.
    + cbn. unfold supplied_file in Hs.
      destruct (files w !! path); [discriminate|]. intros Hfile. congruence.
  - (* nothing is inserted *)
    intros Hdup. apply add_paper_not_stored. intros i Hi. congruence.
  - (* the second path with the same bytes *)
    intros paper_id path content Hg Hout Hfile.
    destruct (add_paper w db title authors file_path abstract publication_date
                category keywords create_sample_if_missing)
      as [[out w1] db1] eqn:Hadd.
    unfold outcome_of, world_of, database_of in *. cbn [fst snd] in *. subst out.
    apply add_paper_stored in Hadd
      as (row & Hrows & _ & [(Hnone & _)|(p & c & Hp & Hc & Hfresh & _ & Hhash)]);
      [congruence|].
    assert (p = path) by congruence. subst p.
    assert (c = content) by congruence. subst c.
    intros w2 title2 authors2 file_path2 abstract2 publication_date2 category2
      keywords2 create2 path2 Hg2 Hfile2.
    split.
    + rewrite (add_paper_with_file _ _ _ _ _ _ _ _ _ _ _ Hg2).
      unfold supplied_file. rewrite Hfile2.
      assert (Hnow : hash_stored db1 (SHA256.sha256_hex content) = true).
      { apply hash_stored_true. exists row. split; [|exact Hhash].
        rewrite Hrows. apply in_or_app. right. left. reflexivity. }
      rewrite Hnow. reflexivity.
    + rewrite Hrows, List.filter_app, (hash_not_stored_filter _ _ Hfresh).
      cbn [List.filter app]. rewrite Hhash.
      rewrite bool_decide_eq_true_2 by reflexivity. reflexivity.
  - (* the same path with other bytes *)
    intros path content stored Hg Hfile Hin Hpath Hfresh.
    rewrite (add_paper_with_file _ _ _ _ _ _ _ _ _ _ _ Hg).
    unfold supplied_file. rewrite Hfile, Hfresh.
    destruct (insert_paper _ _ _ _ _ _ _ _ _ _) as [[i db1]|e] eqn:Hins.
    + exfalso. apply insert_paper_ok in Hins as [Hfree _].
      unfold constraints_hold in Hfree. apply andb_true_iff in Hfree as [Hfree _].
      cbn in Hfree. apply negb_true_iff in Hfree.
      assert (Hex : existsb (fun r => bool_decide (Paper.file_path r = Some path))
                      (papers db) = true).
      { apply existsb_exists. exists stored. split; [exact Hin|].
        apply bool_decide_eq_true, Hpath. }
      congruence.
    + cbn. split; [discriminate|].
      apply insert_paper_raises in Hins as [->| ->]; [right|left]; reflexivity.
Qed.


(** ** The sample calls *)

Example add_sample_first :
  add_sample sample_world fresh_database "a.pdf" false
  = (Ok (Some 1), sample_world, sample_database).
Proof. vm_compute. reflexivity. Qed.

(** C2 on the sample data: after [a.pdf] was stored, [b.pdf] with the same
    bytes is a duplicate; [a.pdf] with other bytes is not. *)
Lemma add_paper_duplicate_by_content_witness :
  (add_sample sample_world sample_database "b.pdf" false
     = (Ok None, sample_world, sample_database) /\
   length (List.filter
             (fun p => bool_decide
                (Paper.file_hash p = Some (SHA256.sha256_hex (bytes_of_string "ABC"))))
             (papers sample_database)) = 1%nat) /\
  outcome_of (add_sample sample_world_changed sample_database "a.pdf" false) <> Ok None.
Proof.
  split.
  - pose proof (add_paper_duplicate_by_content sample_world fresh_database
                  "Deep Learning for X" "John Smith, Jane Doe" (Some "a.pdf")
                  (Some "This paper explores deep learning.") (Some "2023-05-15")
                  (Some "Machine Learning") (Some "deep learning, nlp") false) as H.
    cbv zeta in H. destruct H as (_ & _ & Hsame & _).
    apply (Hsame 1 "a.pdf" (bytes_of_string "ABC")
             ltac:(reflexivity) ltac:(vm_compute; reflexivity)
             ltac:(vm_compute; reflexivity)
             sample_world "Deep Learning for X" "John Smith, Jane Doe" (Some "b.pdf")
             (Some "This paper explores deep learning.") (Some "2023-05-15")
             (Some "Machine Learning") (Some "deep learning, nlp") false "b.pdf"
             ltac:(reflexivity) ltac:(vm_compute; reflexivity)).
  - pose proof (add_paper_duplicate_by_content sample_world_changed sample_database
                  "Deep Learning for X" "John Smith, Jane Doe" (Some "a.pdf")
                  (Some "This paper explores deep learning.") (Some "2023-05-15")
                  (Some "Machine Learning") (Some "deep learning, nlp") false) as H.
    cbv zeta in H. destruct H as (_ & _ & _ & Hpath).
    apply (Hpath "a.pdf" (bytes_of_string "ABD") sample_paper
             ltac:(reflexivity) ltac:(vm_compute; reflexivity)
             ltac:(left; reflexivity) ltac:(reflexivity)
             ltac:(vm_compute; reflexivity)).
Defined.


(** C7 on the sample data: the path [a.pdf] is stored, its bytes changed,
    and the INSERT fails on the unique path. *)
Lemma failed_add_leaves_store_witness :
  outcome_of (add_sample sample_world_changed sample_database "a.pdf" false)
    = Raise IntegrityError /\
  database_of (add_sample sample_world_changed sample_database "a.pdf" false)
    = sample_database.
Proof.
  assert (Hraise : outcome_of (add_sample sample_world_changed sample_database
                                 "a.pdf" false) = Raise IntegrityError)
    by (vm_compute; reflexivity).
  split; [exact Hraise|].
  exact (failed_add_leaves_store sample_world_changed sample_database
           "Deep Learning for X" "John Smith, Jane Doe" (Some "a.pdf")
           (Some "This paper explores deep learning.") (Some "2023-05-15")
           (Some "Machine Learning") (Some "deep learning, nlp") false
           IntegrityError Hraise).
Defined.

(** ** [_initialize_database], [clear_test_data] and the reachable databases *)

Section Reachable.

Context {E : Engine}.

Lemma initialize_database_papers (db db' : Database) :
  _initialize_database db = Ok db' -> papers db' = papers db.
Proof.
  unfold _initialize_database, create_papers_fts.
  destruct (papers_fts db) as [ix|].
  - intros [= <-]. reflexivity.
  - destruct fts5.
    + intros [= <-]. reflexivity.
    + intros [= <-]. reflexivity.
Qed.

(** Initialization never raises. *)
Lemma initialize_database_succeeds (db : Database) :
  exists db' : Database, _initialize_database db = Ok db'.
Proof.
  unfold _initialize_database, create_papers_fts.
  destruct (papers_fts db) as [ix|]; [eauto|].
  destruct fts5; cbn; eauto.
Qed.

(** Without FTS5 in the engine, a database without index stays so. *)
Lemma initialize_database_no_fts5 (db : Database) :
  fts5 = false -> papers_fts db = None -> _initialize_database db = Ok db.
Proof.
  intros Hno Hix. unfold _initialize_database, create_papers_fts.
  rewrite Hix, Hno. reflexivity.
Qed.

Lemma clear_test_data_papers (w : World) (db : Database) (p : Paper.t) :
  In p (papers (snd (clear_test_data w db))) -> In p (papers db).
Proof.
  unfold clear_test_data, delete_title_like. cbn [snd papers].
  intros Hin. apply List.filter_In in Hin as [Hin _]. exact Hin.
Qed.

(** C9: in every database reachable through the public operations, a paper
    without file path has no file hash; a call of [add_paper] that stores a
    paper stores it either with neither path nor hash, or with the path
    given and the fingerprint of the file at that path. *)
Theorem no_path_no_hash :
  (forall db : Database,
      reachable db ->
      forall p : Paper.t,
        In p (papers db) -> Paper.file_path p = None -> Paper.file_hash p = None) /\
  (forall (w w' : World) (db db' : Database) (title authors : string)
          (file_path abstract publication_date category keywords : option string)
          (create_sample_if_missing : bool) (paper_id : Z),
      add_paper w db title authors file_path abstract publication_date category
        keywords create_sample_if_missing = (Ok (Some paper_id), w', db') ->
      exists row : Paper.t,
        papers db' = papers db ++ [row] /\
        ((given file_path = None /\
          Paper.file_path row = None /\ Paper.file_hash row = None) \/
         (exists (path : string) (content : list byte),
             given file_path = Some path /\
             files w' !! path = Some content /\
             Paper.file_path row = Some path /\
             Paper.file_hash row = Some (SHA256.sha256_hex content)))).
Proof.
  split.
  - induction 1 as [db Hinit|db db' _ IH Hinit|db w t a fp ab pd c k cr _ IH|db w _ IH];
      intros p Hin Hpath.
    + apply initialize_database_papers in Hinit. rewrite Hinit in Hin.
      destruct Hin.
    + apply initialize_database_papers in Hinit. rewrite Hinit in Hin.
      exact (IH p Hin Hpath).
    + destruct (add_paper w db t a fp ab pd c k cr) as [[out w1] db1] eqn:Hadd.
      cbn [snd] in Hin.
      destruct out as [[i|]|e].
      * apply add_paper_stored in Hadd as (row & Hrows & _ & Hshape).
        rewrite Hrows in Hin. apply in_app_or in Hin as [Hin|[<-|[]]].
        -- exact (IH p Hin Hpath).
        -- destruct Hshape as [(_ & _ & Hh)|(q & content & _ & _ & _ & Hq & _)];
             [exact Hh|congruence].
      * assert (Hdb : db1 = db).
        { change db1 with (database_of (Ok (@None Z), w1, db1)). rewrite <- Hadd.
          apply add_paper_not_stored. rewrite Hadd. discriminate. }
        subst db1. exact (IH p Hin Hpath).
      * assert (Hdb : db1 = db).
        { change db1 with (database_of (@Raise (option Z) e, w1, db1)).
          rewrite <- Hadd.
          apply add_paper_not_stored. rewrite Hadd. discriminate. }
        subst db1. exact (IH p Hin Hpath).
    + apply clear_test_data_papers in Hin. exact (IH p Hin Hpath).
  - intros w w' db db' t a fp ab pd c k cr i Hadd.
    apply add_paper_stored in Hadd as (row & Hrows & _ & Hshape).
    exists row. split; [exact Hrows|].
    destruct Hshape as [H|(q & content & Hg & Hf & _ & Hq & Hh)]; [left; exact H|].
    right. exists q, content. repeat split; assumption.
Qed.

End Reachable.

(** C9 on a database reached by adding a paper without file. *)
Lemma no_path_no_hash_witness :
  @reachable sample_engine sample_database_no_file /\
  forall p : Paper.t,
    In p (papers sample_database_no_file) -> Paper.file_hash p = None.
Proof.
  assert (Hreach : @reachable sample_engine sample_database_no_file).
  { apply (@reach_add sample_engine). apply (@reach_new sample_engine). reflexivity. }
  split; [exact Hreach|].
  intros p Hin.
  apply (proj1 (@no_path_no_hash sample_engine) sample_database_no_file Hreach p Hin).
  destruct Hin as [<-|[]]. reflexivity.
Defined.

(** ** [search_papers] *)

Section Search.

Context {E : Engine}.

Lemma base_statement_query (query : option string) (q : string) :
  given query = Some q -> base_statement query = Ok (FtsMatch q).
Proof. intros Hq. unfold base_statement. rewrite Hq. reflexivity. Qed.


(** The statement that [search_papers] runs is never the LIKE statement. *)
Lemma base_statement_never_like (query : option string)
    (p_title p_abstract p_authors p_keywords : string) :
  base_statement query <> Ok (LikeAny p_title p_abstract p_authors p_keywords).
Proof.
  unfold base_statement. destruct (given query); discriminate.
Qed.

(** What [search_papers] returns is the dictionaries of some stored papers. *)
Lemma search_papers_rows (db : Database) (query category author year : option string)
    (results : list (gmap string value)) :
  search_papers db query category author year = Ok results ->
  exists ps : list Paper.t,
    results = map paper_dict ps /\ forall p : Paper.t, In p ps -> In p (papers db).
Proof.
  unfold search_papers, execute_select.
  destruct (base_statement query) as [sql|e]; [|discriminate].
  destruct (base_rows db sql) as [rows|e] eqn:Hbase; [|discriminate].
  intros [= <-].
  exists (List.filter
            (fun p => forallb (fun f => filter_holds f p)
                        (added_filters category author year)) rows).
  split; [rewrite map_map; reflexivity|].
  intros p Hin. apply List.filter_In in Hin as [Hin _].
  destruct sql as [q|p1 p2 p3 p4|]; cbn in Hbase.
  - destruct (papers_fts db) as [ix|]; [|discriminate].
    destruct (fts5_match q) as [m|]; [|discriminate].
    injection Hbase as <-. apply in_flat_map in Hin as (p' & Hp' & Hin).
    apply in_map_iff in Hin as (f & <- & _). exact Hp'.
  - injection Hbase as <-. apply List.filter_In in Hin as [Hin _]. exact Hin.
  - injection Hbase as <-. exact Hin.
Qed.

Lemma paper_dict_keys (p : Paper.t) :
  dom (paper_dict p)
  = {[ "id"; "title"; "authors"; "abstract"; "publication_date";
       "category"; "file_path"; "upload_date"; "keywords" ]}.
Proof.
  unfold paper_dict, dict, columns, select_row. cbn [combine fold_left fst snd].
  rewrite !dom_insert_L, dom_empty_L.
  apply set_eq. intros key. set_unfold. tauto.
Qed.

Lemma paper_dict_no_file_hash (p : Paper.t) :
  paper_dict p !! "file_hash" = None.
Proof.
  unfold paper_dict, dict, columns, select_row. cbn [combine fold_left fst snd].
  rewrite !lookup_insert_ne by discriminate. apply lookup_empty.
Qed.

(** C1, which the code departs from: with a database that has no
    full-text table - what [_initialize_database] leaves, without raising,
    when the engine has no FTS5 - every call of [search_papers] with a
    non-empty query raises [OperationalError], whatever the filters; the
    LIKE statement of the [except] branch, had it been run, would have
    returned rows. *)
Theorem search_without_index_raises (db : Database)
    (query category author year : option string) (q : string) :
  papers_fts db = None ->
  given query = Some q ->
  (exists db0 : Database, _initialize_database db = Ok db0) /\
  search_papers db query category author year = Raise OperationalError /\
  (forall pattern : string,
      exists rows : list (list value),
        execute_select db (LikeAny pattern pattern pattern pattern)
          (added_filters category author year) = Ok rows).
Proof.
  intros Hix Hq. split; [apply initialize_database_succeeds|]. split.
  - unfold search_papers. rewrite (base_statement_query _ _ Hq).
    unfold execute_select, base_rows. rewrite Hix. reflexivity.
  - intros pattern. unfold execute_select, base_rows. eauto.
Qed.


(** C10: every dictionary that [search_papers] returns has exactly the keys
    id, title, authors, abstract, publication_date, category, file_path,
    upload_date and keywords; none has the key file_hash. *)
Theorem search_result_keys (db : Database)
    (query category author year : option string)
    (results : list (gmap string value)) (d : gmap string value) :
  search_papers db query category author year = Ok results ->
  In d results ->
  dom d = {[ "id"; "title"; "authors"; "abstract"; "publication_date";
             "category"; "file_path"; "upload_date"; "keywords" ]} /\
  d !! "file_hash" = None.
Proof.
  intros Hsearch Hin.
  apply search_papers_rows in Hsearch as (ps & -> & _).
  apply in_map_iff in Hin as (p & <- & _).
  split; [apply paper_dict_keys|apply paper_dict_no_file_hash].
Qed.

End Search.

(** C1 on the sample data, with an engine that has no FTS5. *)
Lemma search_without_index_raises_witness :
  @_initialize_database sample_engine_no_fts5 empty_database = Ok empty_database /\
  add_sample sample_world empty_database "a.pdf" false
    = (Ok (Some 1), sample_world, sample_database_no_fts5) /\
  @search_papers sample_engine_no_fts5 sample_database_no_fts5
    (Some "Deep") None None None = Raise OperationalError /\
  @execute_select sample_engine_no_fts5 sample_database_no_fts5
    (LikeAny "%Deep%" "%Deep%" "%Deep%" "%Deep%") []
    = Ok [select_row sample_paper].
Proof.
  split; [reflexivity|]. split; [vm_compute; reflexivity|].
  split; [|vm_compute; reflexivity].
  apply (@search_without_index_raises sample_engine_no_fts5 sample_database_no_fts5
           (Some "Deep") None None None "Deep" eq_refl eq_refl).
Defined.


(** C10 on the one result of a search of the sample database. *)
Lemma search_result_keys_witness :
  dom (paper_dict sample_paper)
    = {[ "id"; "title"; "authors"; "abstract"; "publication_date";
         "category"; "file_path"; "upload_date"; "keywords" ]} /\
  paper_dict sample_paper !! "file_hash" = None.
Proof.
  apply (@search_result_keys sample_engine sample_database
           (Some "Deep") (Some "Machine Learning") (Some "smith") (Some "2023")
           [paper_dict sample_paper] (paper_dict sample_paper)).
  - reflexivity.
  - left. reflexivity.
Defined.

(** ** LIKE *)

Lemma lower_not_zero (c : ascii) : Ascii.eqb c zero = false -> lower c <> zero.
Proof.
  destruct c as [[] [] [] [] [] [] [] []]; intros H; try discriminate H;
    vm_compute; discriminate.
Qed.

Lemma like_match_percent (s : string) : like_match "%" s = true.
Proof.
  induction s as [|c s IH]; [reflexivity|].
  cbn. cbn in IH. exact IH.
Qed.


Lemma like_match_char (c : ascii) (pattern s : string) :
  Ascii.eqb c "%" = false -> Ascii.eqb c "_" = false ->
  like_match (String c pattern) s
  = match s with
    | EmptyString => false
    | String d s' => Ascii.eqb (lower c) (lower d) && like_match pattern s'
    end.
Proof. intros H1 H2. cbn [like_match]. rewrite H1, H2. reflexivity. Qed.

Lemma plain_cons (c : ascii) (a : string) :
  plain (String c a) = true ->
  Ascii.eqb c "%" = false /\ Ascii.eqb c "_" = false /\
  Ascii.eqb c zero = false /\ plain a = true.
Proof.
  cbn [plain]. rewrite !andb_true_iff, !negb_true_iff. tauto.
Qed.

Lemma append_cons (c : ascii) (a rest : string) :
  String.append (String c a) rest = String c (String.append a rest).
Proof. reflexivity. Qed.

Lemma c_str_cons (c : ascii) (r : string) :
  c_str (String c r) = if Ascii.eqb c zero then EmptyString else String c (c_str r).
Proof. reflexivity. Qed.

Lemma c_str_plain (a rest : string) :
  plain a = true -> c_str (String.append a rest) = String.append a (c_str rest).
Proof.
  induction a as [|c a IH]; [reflexivity|].
  intros Hp. apply plain_cons in Hp as (_ & _ & Hz & Hp).
  rewrite !append_cons, c_str_cons, Hz, (IH Hp). reflexivity.
Qed.

Lemma prefix_cons (c d : ascii) (a s : string) :
  String.prefix (String c a) (String d s) = Ascii.eqb c d && String.prefix a s.
Proof.
  cbn [String.prefix]. destruct (ascii_dec c d) as [->|Hne].
  - rewrite Ascii.eqb_refl. reflexivity.
  - apply Ascii.eqb_neq in Hne. rewrite Hne. reflexivity.
Qed.

(** A plain text followed by [%] matches the texts that start with it, up
    to the case of letters. *)
Lemma like_match_prefix (a s : string) :
  plain a = true ->
  like_match (String.append a "%") s = starts_with_nocase a s.
Proof.
  unfold starts_with_nocase, starts_with. revert s.
  induction a as [|c a IH]; intros s Hp.
  - change (String.append "" "%") with "%". cbn [lower_string].
    rewrite like_match_percent.
    destruct (lower_string s); reflexivity.
  - apply plain_cons in Hp as (H1 & H2 & _ & Hp).
    rewrite append_cons, (like_match_char _ _ _ H1 H2).
    destruct s as [|d s]; [reflexivity|].
    cbn [lower_string]. rewrite prefix_cons, (IH s Hp). reflexivity.
Qed.

(** Reading the text as a C string changes nothing for a plain prefix. *)
Lemma starts_with_nocase_c_str (a s : string) :
  plain a = true -> starts_with_nocase a (c_str s) = starts_with_nocase a s.
Proof.
  unfold starts_with_nocase, starts_with. revert s.
  induction a as [|c a IH]; intros s Hp.
  - cbn [lower_string]. destruct (lower_string (c_str s)), (lower_string s); reflexivity.
  - apply plain_cons in Hp as (_ & _ & Hz & Hp).
    destruct s as [|d s]; [reflexivity|].
    rewrite c_str_cons. destruct (Ascii.eqb d zero) eqn:Hd.
    + apply Ascii.eqb_eq in Hd. subst d. cbn [lower_string].
      rewrite prefix_cons.
      assert (Hne : Ascii.eqb (lower c) (lower zero) = false).
      { apply Ascii.eqb_neq. apply lower_not_zero, Hz. }
      rewrite Hne. reflexivity.
    + cbn [lower_string]. rewrite !prefix_cons, (IH s Hp). reflexivity.
Qed.

Lemma sqlite_like_prefix (a s : string) :
  plain a = true ->
  sqlite_like s (String.append a "%") = starts_with_nocase a s.
Proof.
  intros Hp. unfold sqlite_like. rewrite (c_str_plain _ _ Hp).
  change (c_str "%") with "%".
  rewrite (like_match_prefix _ _ Hp). apply starts_with_nocase_c_str, Hp.
Qed.



(** ** [clear_test_data] *)

(** C8 as stated fails: a stored paper whose title does not start with
    "Deep Learning for" (it is in lower case) does not remain stored. *)
Lemma clear_test_data_ignores_case :
  ~ (forall p : Paper.t,
        In p (papers lowercase_database) ->
        starts_with "Deep Learning for" (Paper.title p) = false ->
        In p (papers (snd (clear_test_data sample_world lowercase_database)))).
Proof.
  intros Hstays.
  assert (Hin : In lowercase_paper (papers lowercase_database))
    by (left; reflexivity).
  apply (Hstays lowercase_paper Hin eq_refl).
Qed.

(** C8, amended: [clear_test_data] takes no prefix; it deletes exactly the
    stored papers whose title starts with "Deep Learning for" up to the case
    of the letters A to Z (it is a LIKE), every other paper stays stored
    and unchanged, in the same order, and the file [sample_paper.pdf] is
    removed if it exists; nothing else changes in the world. *)
Theorem clear_test_data_deletes (w : World) (db : Database) :
  papers (snd (clear_test_data w db))
    = List.filter
        (fun p => negb (starts_with_nocase "Deep Learning for" (Paper.title p)))
        (papers db) /\
  (forall p : Paper.t,
      In p (papers (snd (clear_test_data w db)))
      <-> In p (papers db) /\
          starts_with_nocase "Deep Learning for" (Paper.title p) = false) /\
  files (fst (clear_test_data w db)) = delete "sample_paper.pdf" (files w) /\
  now (fst (clear_test_data w db)) = now w /\
  fpdf_output (fst (clear_test_data w db)) = fpdf_output w.
Proof.
  assert (Hlike : forall p : Paper.t,
             sqlite_like (Paper.title p) "Deep Learning for%"
             = starts_with_nocase "Deep Learning for" (Paper.title p)).
  { intros p. apply (sqlite_like_prefix "Deep Learning for"). reflexivity. }
  assert (Hrows : papers (snd (clear_test_data w db))
                  = List.filter
                      (fun p => negb (starts_with_nocase "Deep Learning for"
                                        (Paper.title p)))
                      (papers db)).
  { unfold clear_test_data, delete_title_like. cbn [snd papers].
    apply List.filter_ext. intros p. rewrite Hlike. reflexivity. }
  split; [exact Hrows|]. split.
  - intros p. rewrite Hrows, List.filter_In, negb_true_iff. reflexivity.
  - unfold clear_test_data. cbn [fst].
    destruct (path_exists w "sample_paper.pdf") eqn:Hex.
    + repeat split.
    + apply path_exists_false in Hex.
      repeat split. symmetry. apply delete_id, Hex.
Qed.

(** ** What [search_papers] selects *)

Section Selection.

Context {E : Engine}.

Lemma year_filter_holds (y : string) (p : Paper.t) :
  filter_holds (YearEq y) p = bool_decide (year_of p = Some y).
Proof.
  unfold filter_holds, year_of.
  destruct (Paper.publication_date p) as [d|]; [|reflexivity].
  destruct (strftime_Y d) as [y'|]; [|reflexivity].
  destruct (String.eqb y' y) eqn:Hy.
  - apply String.eqb_eq in Hy. subst y'. symmetry.
    apply bool_decide_eq_true. reflexivity.
  - apply String.eqb_neq in Hy. symmetry.
    apply bool_decide_eq_false. congruence.
Qed.

(** The appended clauses hold together exactly when the three filters of
    the conjunction do. *)
Lemma added_filters_hold (category author year : option string) (p : Paper.t) :
  forallb (fun f => filter_holds f p) (added_filters category author year)
  = match given category with
    | Some c => bool_decide (Paper.category p = Some c)
    | None => true
    end
    && match given author with
       | Some a => sqlite_like (Paper.authors p) (String.append "%" (String.append a "%"))
       | None => true
       end
    && match given year with
       | Some y => bool_decide (year_of p = Some y)
       | None => true
       end.
Proof.
  unfold added_filters.
  destruct (given category) as [c|], (given author) as [a|], (given year) as [y|];
    cbn [app forallb]; rewrite ?year_filter_holds; cbn [filter_holds];
    rewrite ?andb_true_r, ?andb_assoc; reflexivity.
Qed.



End Selection.



(** ** The table and its index along the operations *)

Lemma max_id_bounds (rows : list Paper.t) :
  0 <= max_id rows /\ forall p : Paper.t, In p rows -> Paper.id p <= max_id rows.
Proof.
  induction rows as [|r rows [IH0 IH]]; cbn [max_id fold_right].
  - split; [lia|]. intros p [].
  - fold (max_id rows). split; [lia|].
    intros p [<-|Hin]; [lia|]. specialize (IH p Hin). lia.
Qed.

(** The row of a successful INSERT and the database it leaves. *)
Lemma insert_paper_result (db db' : Database) (title authors : string)
    (abstract publication_date category path hash : option string)
    (upload_date : string) (keywords : option string) (paper_id : Z) :
  insert_paper db title authors abstract publication_date category path hash
    upload_date keywords = Ok (paper_id, db') ->
  let new := {| Paper.id := paper_id; Paper.title := title; Paper.authors := authors;
                Paper.abstract := abstract; Paper.publication_date := publication_date;
                Paper.category := category; Paper.file_path := path;
                Paper.file_hash := hash; Paper.upload_date := upload_date;
                Paper.keywords := keywords |} in
  paper_id = Z.max (sqlite_sequence db) (max_id (papers db)) + 1 /\
  constraints_hold path hash (papers db) = true /\
  papers db' = papers db ++ [new] /\
  sqlite_sequence db' = paper_id /\
  papers_fts db' = after_insert new (papers_fts db).
Proof.
  unfold insert_paper.
  destruct (Z.ltb _ _); [discriminate|].
  destruct (constraints_hold _ _ _); cbn [negb]; [|discriminate].
  intros [= <- <-]. cbn. repeat split; reflexivity.
Qed.

(** A call of [add_paper] that returns an id did the INSERT, with no path
    and no hash or with the path given and the fingerprint of its file. *)
Lemma add_paper_inserted (w w' : World) (db db' : Database) (title authors : string)
    (file_path abstract publication_date category keywords : option string)
    (create : bool) (paper_id : Z) :
  add_paper w db title authors file_path abstract publication_date category
    keywords create = (Ok (Some paper_id), w', db') ->
  exists path hash : option string,
    insert_paper db title authors abstract publication_date category path hash
      (now w') keywords = Ok (paper_id, db') /\
    ((given file_path = None /\ path = None /\ hash = None /\ w' = w) \/
     (exists (p : string) (content : list byte),
         given file_path = Some p /\
         supplied_file w p create = Some (w', content) /\
         path = Some p /\ hash = Some (SHA256.sha256_hex content) /\
         hash_stored db (SHA256.sha256_hex content) = false)).
Proof.
  add_paper_cases file_path path Hg.
  - destruct (supplied_file w path create) as [[w1 content]|] eqn:Hs; [|discriminate].
    destruct (hash_stored db _) eqn:Hdup; [discriminate|].
    destruct (insert_paper _ _ _ _ _ _ _ _ _ _) as [[i db1]|e] eqn:Hins; [|discriminate].
    intros [= <- <- <-]. exists (Some path), (Some (SHA256.sha256_hex content)).
    split; [exact Hins|]. right. exists path, content. repeat split; assumption.
  - destruct (insert_paper _ _ _ _ _ _ _ _ _ _) as [[i db1]|e] eqn:Hins; [|discriminate].
    intros [= <- <- <-]. exists None, None. split; [exact Hins|]. left.
    repeat split; reflexivity.
Qed.

Lemma ids_increasing_snoc (rows : list Paper.t) (new : Paper.t) :
  ids_increasing rows ->
  (forall p : Paper.t, In p rows -> Paper.id p < Paper.id new) ->
  ids_increasing (rows ++ [new]).
Proof.
  unfold ids_increasing. induction rows as [|r rows IH]; intros Hs Hlt.
  - cbn. repeat constructor.
  - cbn [map app] in *. apply StronglySorted_inv in Hs as [Hs Hall].
    constructor.
    + apply IH; [exact Hs|]. intros p Hp. apply Hlt. right. exact Hp.
    + rewrite map_app. apply Forall_app. split; [exact Hall|].
      constructor; [|constructor]. apply Hlt. left. reflexivity.
Qed.

Lemma ids_increasing_filter (keep : Paper.t -> bool) (rows : list Paper.t) :
  ids_increasing rows -> ids_increasing (List.filter keep rows).
Proof.
  unfold ids_increasing. induction rows as [|r rows IH]; intros Hs; [exact Hs|].
  cbn [map] in Hs. apply StronglySorted_inv in Hs as [Hs Hall].
  cbn [List.filter]. destruct (keep r); [|exact (IH Hs)].
  cbn [map]. constructor; [exact (IH Hs)|].
  rewrite List.Forall_forall in *. intros i Hi.
  apply in_map_iff in Hi as (p & <- & Hp). apply List.filter_In in Hp as [Hp _].
  apply Hall. apply in_map. exact Hp.
Qed.

(** Two stored papers with one id are one paper. *)
Lemma ids_increasing_inj (rows : list Paper.t) (p q : Paper.t) :
  ids_increasing rows -> In p rows -> In q rows -> Paper.id p = Paper.id q -> p = q.
Proof.
  unfold ids_increasing. induction rows as [|r rows IH]; intros Hs Hp Hq Hid; [destruct Hp|].
  cbn [map] in Hs. apply StronglySorted_inv in Hs as [Hs Hall].
  rewrite List.Forall_forall in Hall.
  destruct Hp as [<-|Hp], Hq as [<-|Hq].
  - reflexivity.
  - specialize (Hall (Paper.id q) (in_map _ _ _ Hq)). lia.
  - specialize (Hall (Paper.id p) (in_map _ _ _ Hp)). lia.
  - exact (IH Hs Hp Hq Hid).
Qed.

Lemma unique_free_notin (column : Paper.t -> option string) (x : string)
    (rows : list Paper.t) :
  unique_free column (Some x) rows = true -> ~ In x (omap column rows).
Proof.
  cbn [unique_free]. rewrite negb_true_iff. intros Hfree Hin.
  apply list_elem_of_In, list_elem_of_omap in Hin as (r & Hr & Hx).
  apply list_elem_of_In in Hr.
  assert (Hex : existsb (fun r => bool_decide (column r = Some x)) rows = true).
  { apply existsb_exists. exists r. split; [exact Hr|].
    apply bool_decide_eq_true. exact Hx. }
  congruence.
Qed.

Lemma omap_snoc (column : Paper.t -> option string) (rows : list Paper.t)
    (new : Paper.t) :
  omap column (rows ++ [new])
  = omap column rows ++ match column new with Some x => [x] | None => [] end.
Proof.
  rewrite omap_app. f_equal.
Qed.

Lemma NoDup_omap_snoc (column : Paper.t -> option string) (rows : list Paper.t)
    (new : Paper.t) :
  NoDup (omap column rows) ->
  unique_free column (column new) rows = true ->
  NoDup (omap column (rows ++ [new])).
Proof.
  intros Hnd Hfree. rewrite omap_snoc.
  destruct (column new) as [x|]; [|rewrite app_nil_r; exact Hnd].
  apply NoDup_app. split; [exact Hnd|]. split.
  - intros y Hy Hx. apply list_elem_of_In in Hx as [<-|[]].
    apply (unique_free_notin _ _ _ Hfree). apply list_elem_of_In. exact Hy.
  - apply NoDup_singleton.
Qed.

Lemma NoDup_omap_filter (column : Paper.t -> option string)
    (keep : Paper.t -> bool) (rows : list Paper.t) :
  NoDup (omap column rows) -> NoDup (omap column (List.filter keep rows)).
Proof.
  induction rows as [|r rows IH]; intros Hnd; [exact Hnd|].
  assert (Hsub : forall x, In x (omap column (List.filter keep rows)) ->
                           In x (omap column rows)).
  { intros x Hx. apply list_elem_of_In, list_elem_of_omap in Hx as (q & Hq & Hc).
    apply list_elem_of_In, List.filter_In in Hq as [Hq _].
    apply list_elem_of_In, list_elem_of_omap. exists q.
    split; [apply list_elem_of_In; exact Hq|exact Hc]. }
  change (omap column (r :: rows))
    with (match column r with
          | Some x => x :: omap column rows
          | None => omap column rows
          end) in Hnd.
  cbn [List.filter]. destruct (keep r).
  - change (omap column (r :: List.filter keep rows))
      with (match column r with
            | Some x => x :: omap column (List.filter keep rows)
            | None => omap column (List.filter keep rows)
            end).
    destruct (column r) as [x|]; [|exact (IH Hnd)].
    apply NoDup_cons in Hnd as [Hnot Hnd].
    apply NoDup_cons. split; [|exact (IH Hnd)].
    intros Hin. apply Hnot. apply list_elem_of_In, Hsub, list_elem_of_In, Hin.
  - destruct (column r) as [x|]; [|exact (IH Hnd)].
    apply NoDup_cons in Hnd as [_ Hnd]. exact (IH Hnd).
Qed.

Lemma filter_map_indexed (g : FtsRow -> bool) (rows : list Paper.t) :
  List.filter g (map indexed rows)
  = map indexed (List.filter (fun p => g (indexed p)) rows).
Proof.
  induction rows as [|r rows IH]; [reflexivity|].
  cbn [map List.filter]. rewrite IH. destruct (g (indexed r)); reflexivity.
Qed.

(** Trigger [papers_ai] keeps the index in step with an INSERT. *)
Lemma after_insert_index_of (rows : list Paper.t) (new : Paper.t) :
  after_insert new (Some (index_of rows)) = Some (index_of (rows ++ [new])).
Proof.
  unfold after_insert, index_of. cbn. rewrite map_app. reflexivity.
Qed.

(** Trigger [papers_ad] keeps the index in step with a DELETE, when no two
    rows share an id. *)
Lemma after_delete_index_of (gone : Paper.t -> bool) (rows : list Paper.t) :
  ids_increasing rows ->
  after_delete (List.filter gone rows) (Some (index_of rows))
  = Some (index_of (List.filter (fun r => negb (gone r)) rows)).
Proof.
  intros Hids. unfold after_delete, index_of. cbn. f_equal. f_equal.
  rewrite filter_map_indexed. f_equal. apply List.filter_ext_in.
  intros p Hp. f_equal. cbn [indexed rowid].
  destruct (gone p) eqn:Hg.
  - apply existsb_exists. exists p. split; [|apply Z.eqb_refl].
    apply List.filter_In. split; assumption.
  - destruct (existsb _ _) eqn:Hex; [|reflexivity].
    apply existsb_exists in Hex as (q & Hq & Hid).
    apply List.filter_In in Hq as [Hq Hgq]. apply Z.eqb_eq in Hid.
    rewrite (ids_increasing_inj rows p q Hids Hp Hq Hid) in Hg. congruence.
Qed.

Section Consistency.

Context {E : Engine}.

Lemma consistent_new (db : Database) :
  _initialize_database empty_database = Ok db -> consistent db.
Proof.
  unfold _initialize_database, create_papers_fts, consistent. cbn.
  destruct fts5 eqn:Hfts; cbn; intros [= <-]; cbn; rewrite ?Hfts;
    (split; [reflexivity|]); (split; [constructor|]);
    (split; [intros p []|]); split; constructor.
Qed.

(** On a consistent database, opening it again changes nothing. *)
Lemma consistent_open (db db' : Database) :
  consistent db -> _initialize_database db = Ok db' -> db' = db.
Proof.
  intros (Hix & _). unfold _initialize_database, create_papers_fts.
  rewrite Hix. destruct db as [rows seq ix]. cbn in *.
  destruct fts5; cbn; intros [= <-]; [|reflexivity].
  unfold create_papers_au, create_papers_ad, create_papers_ai, on_index. cbn.
  rewrite Hix. reflexivity.
Qed.

Lemma consistent_insert (db db' : Database) (title authors : string)
    (abstract publication_date category path hash : option string)
    (upload_date : string) (keywords : option string) (paper_id : Z) :
  consistent db ->
  insert_paper db title authors abstract publication_date category path hash
    upload_date keywords = Ok (paper_id, db') ->
  consistent db'.
Proof.
  intros (Hix & Hids & Hbound & Hpaths & Hhashes) Hins.
  apply insert_paper_result in Hins as (Hid & Hfree & Hrows & Hseq & Hfts).
  destruct (max_id_bounds (papers db)) as [Hmax0 Hmax].
  unfold constraints_hold in Hfree. apply andb_true_iff in Hfree as [Hfp Hfh].
  unfold consistent. rewrite Hrows, Hseq, Hfts, Hix. repeat split.
  - destruct fts5; [|reflexivity]. apply after_insert_index_of.
  - apply ids_increasing_snoc; [exact Hids|].
    intros p Hp. cbn [Paper.id]. specialize (Hmax p Hp). lia.
  - apply in_app_or in H as [Hp|[<-|[]]].
    + apply Hbound, Hp.
    + cbn [Paper.id]. lia.
  - apply in_app_or in H as [Hp|[<-|[]]].
    + specialize (Hbound p Hp). specialize (Hmax p Hp). lia.
    + cbn [Paper.id]. lia.
  - apply NoDup_omap_snoc; assumption.
  - apply NoDup_omap_snoc; assumption.
Qed.

Lemma consistent_add (w : World) (db : Database) (title authors : string)
    (file_path abstract publication_date category keywords : option string)
    (create : bool) :
  consistent db ->
  consistent (snd (add_paper w db title authors file_path abstract
                     publication_date category keywords create)).
Proof.
  intros Hc.
  destruct (add_paper w db title authors file_path abstract publication_date
              category keywords create) as [[out w1] db1] eqn:Hadd.
  cbn [snd]. destruct out as [[i|]|e].
  - apply add_paper_inserted in Hadd as (path & hash & Hins & _).
    exact (consistent_insert _ _ _ _ _ _ _ _ _ _ _ _ Hc Hins).
  - assert (Hdb : db1 = db).
    { change db1 with (database_of (Ok (@None Z), w1, db1)). rewrite <- Hadd.
      apply add_paper_not_stored. rewrite Hadd. discriminate. }
    subst db1. exact Hc.
  - assert (Hdb : db1 = db).
    { change db1 with (database_of (@Raise (option Z) e, w1, db1)). rewrite <- Hadd.
      apply add_paper_not_stored. rewrite Hadd. discriminate. }
    subst db1. exact Hc.
Qed.

Lemma consistent_clear (w : World) (db : Database) :
  consistent db -> consistent (snd (clear_test_data w db)).
Proof.
  intros (Hix & Hids & Hbound & Hpaths & Hhashes).
  unfold clear_test_data, delete_title_like, consistent.
  cbn [snd papers sqlite_sequence papers_fts]. rewrite Hix. repeat split.
  - destruct fts5; [|reflexivity].
    apply (after_delete_index_of
             (fun r => sqlite_like (Paper.title r) "Deep Learning for%")), Hids.
  - apply ids_increasing_filter, Hids.
  - apply List.filter_In in H as [Hp _]. apply Hbound, Hp.
  - apply List.filter_In in H as [Hp _]. apply Hbound, Hp.
  - apply NoDup_omap_filter, Hpaths.
  - apply NoDup_omap_filter, Hhashes.
Qed.

Lemma reachable_consistent (db : Database) : reachable db -> consistent db.
Proof.
  induction 1 as [db Hinit|db db' _ IH Hinit|db w t a fp ab pd c k cr _ IH|db w _ IH].
  - apply consistent_new, Hinit.
  - rewrite (consistent_open db db' IH Hinit). exact IH.
  - apply consistent_add, IH.
  - apply consistent_clear, IH.
Qed.

End Consistency.

(** ** Properties of the initialization, the ids and the index *)





Section Invariants.

Context {E : Engine}.

(** X1: [_initialize_database] is idempotent and keeps the data: run on the
    database it left, it leaves the same database; the rows of [papers] and
    the id sequence are those it found. *)
Theorem initialize_database_idempotent (db db' : Database) :
  _initialize_database db = Ok db' ->
  _initialize_database db' = Ok db' /\
  papers db' = papers db /\
  sqlite_sequence db' = sqlite_sequence db.
Proof.
  unfold _initialize_database, create_papers_fts.
  destruct db as [rows seq [ix|]]; cbn.
  - intros [= <-]. cbn. repeat split.
  - destruct fts5 eqn:Hfts; cbn; intros [= <-]; cbn; rewrite ?Hfts; repeat split.
Qed.



(** X4: in every reachable database the ids grow along the table, no two
    stored papers share an id, and every id is at least 1 and at most the
    id sequence. *)
Theorem reachable_ids (db : Database) :
  reachable db ->
  ids_increasing (papers db) /\
  (forall p q : Paper.t,
      In p (papers db) -> In q (papers db) -> Paper.id p = Paper.id q -> p = q) /\
  (forall p : Paper.t, In p (papers db) -> 1 <= Paper.id p <= sqlite_sequence db).
Proof.
  intros Hr. apply reachable_consistent in Hr as (_ & Hids & Hbound & _).
  split; [exact Hids|]. split; [|exact Hbound].
  intros p q. apply ids_increasing_inj, Hids.
Qed.


End Invariants.

(** X5: the id that [add_paper] returns is at least 1, greater than the
    id sequence and than every stored id, and becomes the id sequence;
    [clear_test_data] keeps the id sequence, so the id of a deleted paper is
    not given again. *)
Theorem add_paper_fresh_id (w w' : World) (db db' : Database) (title authors : string)
    (file_path abstract publication_date category keywords : option string)
    (create_sample_if_missing : bool) (paper_id : Z) :
  add_paper w db title authors file_path abstract publication_date category
    keywords create_sample_if_missing = (Ok (Some paper_id), w', db') ->
  1 <= paper_id /\
  sqlite_sequence db < paper_id /\
  (forall p : Paper.t, In p (papers db) -> Paper.id p < paper_id) /\
  sqlite_sequence db' = paper_id /\
  (forall w2 : World,
      sqlite_sequence (snd (clear_test_data w2 db')) = paper_id).
Proof.
  intros Hadd. apply add_paper_inserted in Hadd as (path & hash & Hins & _).
  apply insert_paper_result in Hins as (Hid & _ & _ & Hseq & _).
  destruct (max_id_bounds (papers db)) as [Hmax0 Hmax].
  split; [lia|]. split; [lia|]. split; [|split].
  - intros p Hp. specialize (Hmax p Hp). lia.
  - exact Hseq.
  - intros w2. exact Hseq.
Qed.

(** ** Properties of the results, the categories and [clear_test_data] *)

(** The values a result holds under its nine keys. *)
Lemma paper_dict_fields (p : Paper.t) :
  paper_dict p !! "id" = Some (VInt (Paper.id p)) /\
  paper_dict p !! "title" = Some (VStr (Paper.title p)) /\
  paper_dict p !! "authors" = Some (VStr (Paper.authors p)) /\
  paper_dict p !! "abstract" = Some (opt_value (Paper.abstract p)) /\
  paper_dict p !! "publication_date" = Some (opt_value (Paper.publication_date p)) /\
  paper_dict p !! "category" = Some (opt_value (Paper.category p)) /\
  paper_dict p !! "file_path" = Some (opt_value (Paper.file_path p)) /\
  paper_dict p !! "upload_date" = Some (VStr (Paper.upload_date p)) /\
  paper_dict p !! "keywords" = Some (opt_value (Paper.keywords p)).
Proof.
  unfold paper_dict, dict, columns, select_row. cbn [combine fold_left fst snd].
  repeat split; rewrite ?lookup_insert_ne by discriminate; apply lookup_insert_eq.
Qed.

Lemma filter_all (rows : list Paper.t) :
  List.filter (fun _ => true) rows = rows.
Proof.
  induction rows as [|r rows IH]; [reflexivity|].
  cbn [List.filter]. rewrite IH. reflexivity.
Qed.

Lemma filter_kept_twice (gone : Paper.t -> bool) (rows : list Paper.t) :
  List.filter gone (List.filter (fun r => negb (gone r)) rows) = [] /\
  List.filter (fun r => negb (gone r)) (List.filter (fun r => negb (gone r)) rows)
  = List.filter (fun r => negb (gone r)) rows.
Proof.
  induction rows as [|r rows [IH1 IH2]]; [split; reflexivity|].
  cbn [List.filter]. destruct (gone r) eqn:Hg; cbn [negb List.filter].
  - split; assumption.
  - rewrite Hg. cbn [negb]. rewrite IH2. split; [exact IH1|reflexivity].
Qed.


(** [get_all_categories] lists each category of a stored paper, once. *)
Lemma get_all_categories_spec (db : Database) :
  NoDup (get_all_categories db) /\
  forall c : string,
    In c (get_all_categories db)
    <-> exists p : Paper.t, In p (papers db) /\ Paper.category p = Some c.
Proof.
  unfold get_all_categories. split; [apply NoDup_remove_dups|].
  intros c. rewrite <- list_elem_of_In, elem_of_remove_dups, list_elem_of_omap.
  split; intros (p & Hp & Hc); exists p; split; try exact Hc;
    apply list_elem_of_In; exact Hp.
Qed.

Section Results.

Context {E : Engine}.

Lemma search_all_rows (db : Database) :
  search_papers db None None None None = Ok (map paper_dict (papers db)).
Proof.
  unfold search_papers, execute_select. cbn. rewrite map_map, filter_all.
  reflexivity.
Qed.

(** X7: after a call of [add_paper] that stores a paper,
    [get_all_categories] lists the categories it listed before and the
    category of the call (as passed, the empty text too), each once; a
    call without category adds none. *)
Theorem categories_after_add (w w' : World) (db db' : Database)
    (title authors : string)
    (file_path abstract publication_date category keywords : option string)
    (create_sample_if_missing : bool) (paper_id : Z) :
  add_paper w db title authors file_path abstract publication_date category
    keywords create_sample_if_missing = (Ok (Some paper_id), w', db') ->
  NoDup (get_all_categories db') /\
  forall c : string,
    In c (get_all_categories db')
    <-> In c (get_all_categories db) \/ category = Some c.
Proof.
  intros Hadd. apply add_paper_inserted in Hadd as (path & hash & Hins & _).
  apply insert_paper_result in Hins as (_ & _ & Hrows & _).
  destruct (get_all_categories_spec db') as [Hnd Hin'].
  destruct (get_all_categories_spec db) as [_ Hin].
  split; [exact Hnd|]. intros c. rewrite Hin', Hin, Hrows. split.
  - intros (p & Hp & Hc). apply in_app_or in Hp as [Hp|[<-|[]]].
    + left. exists p. split; assumption.
    + right. exact Hc.
  - intros [(p & Hp & Hc)| ->].
    + exists p. split; [apply in_or_app; left; exact Hp|exact Hc].
    + eexists. split; [apply in_or_app; right; left; reflexivity|reflexivity].
Qed.

(** X8: the filters only narrow a search: every result of a search with
    filters is a result of the same search without them, and when a
    category is given every result carries that category. *)
Theorem search_filters_narrow (db : Database)
    (query category author year : option string)
    (results : list (gmap string value)) :
  search_papers db query category author year = Ok results ->
  exists unfiltered : list (gmap string value),
    search_papers db query None None None = Ok unfiltered /\
    forall d : gmap string value,
      In d results ->
      In d unfiltered /\
      (forall c : string, given category = Some c ->
                          d !! "category" = Some (VStr c)).
Proof.
  unfold search_papers, execute_select.
  destruct (base_statement query) as [sql|e]; [|discriminate].
  destruct (base_rows db sql) as [rows|e]; [|discriminate].
  intros [= <-]. eexists. split; [reflexivity|].
  intros d Hd. rewrite map_map in Hd. apply in_map_iff in Hd as (p & <- & Hp).
  apply List.filter_In in Hp as [Hp Hf]. fold (paper_dict p). split.
  - rewrite map_map. apply in_map_iff. exists p. split; [reflexivity|].
    cbn. rewrite filter_all. exact Hp.
  - intros c Hc. rewrite added_filters_hold, Hc in Hf.
    apply andb_true_iff in Hf as [Hf _]. apply andb_true_iff in Hf as [Hf _].
    apply bool_decide_eq_true in Hf.
    destruct (paper_dict_fields p) as (_ & _ & _ & _ & _ & Hcat & _).
    rewrite Hf in Hcat. exact Hcat.
Qed.

(** X9: what [add_paper] stores is what a search shows: after a call that
    returns an id, the search without arguments has a result with that id,
    the title, authors, abstract, publication date, category and keywords
    of the call, the file path of the call (none for an empty one) and the
    clock's reading as upload date. *)
Theorem add_then_search (w w' : World) (db db' : Database) (title authors : string)
    (file_path abstract publication_date category keywords : option string)
    (create_sample_if_missing : bool) (paper_id : Z) :
  add_paper w db title authors file_path abstract publication_date category
    keywords create_sample_if_missing = (Ok (Some paper_id), w', db') ->
  exists (results : list (gmap string value)) (d : gmap string value),
    search_papers db' None None None None = Ok results /\
    In d results /\
    d !! "id" = Some (VInt paper_id) /\
    shows d title authors abstract publication_date category keywords /\
    d !! "file_path" = Some (opt_value (given file_path)) /\
    d !! "upload_date" = Some (VStr (now w')).
Proof.
  intros Hadd. apply add_paper_inserted in Hadd as (path & hash & Hins & Hshape).
  apply insert_paper_result in Hins as (_ & _ & Hrows & _).
  cbv zeta in Hrows.
  eexists. eexists. split; [apply search_all_rows|].
  rewrite Hrows, map_app. split; [apply in_or_app; right; left; reflexivity|].
  match goal with |- context [paper_dict ?r] =>
    destruct (paper_dict_fields r) as (Hi & Ht & Ha & Hab & Hpd & Hc & Hfp & Hud & Hk)
  end.
  cbn [Paper.id Paper.title Paper.authors Paper.abstract Paper.publication_date
       Paper.category Paper.file_path Paper.upload_date Paper.keywords] in *.
  split; [exact Hi|]. split; [repeat split; assumption|].
  split; [|exact Hud]. rewrite Hfp.
  destruct Hshape as [(Hg & -> & _)|(p & c & Hg & _ & -> & _)]; rewrite Hg; reflexivity.
Qed.


End Results.

(** X11: [clear_test_data] is idempotent: run again on the world and the
    database it left, it changes neither. *)
Theorem clear_test_data_idempotent (w : World) (db : Database) :
  clear_test_data (fst (clear_test_data w db)) (snd (clear_test_data w db))
  = clear_test_data w db.
Proof.
  unfold clear_test_data. cbn [fst snd]. f_equal.
  - destruct (path_exists w "sample_paper.pdf") eqn:Hex.
    + assert (Hgone : path_exists (os_remove w "sample_paper.pdf") "sample_paper.pdf"
                      = false).
      { apply path_exists_false. cbn. apply lookup_delete_eq. }
      rewrite Hgone. reflexivity.
    + rewrite Hex. reflexivity.
  - unfold delete_title_like. cbn [papers sqlite_sequence papers_fts].
    destruct (filter_kept_twice
                (fun r => sqlite_like (Paper.title r) "Deep Learning for%")
                (papers db)) as [Hnone Hsame].
    rewrite Hnone, Hsame. f_equal.
    unfold after_delete.
    destruct (papers_fts db) as [[rows ai ad au]|]; [|reflexivity].
    cbn. destruct ad; cbn; [|reflexivity].
    f_equal. f_equal.
    induction (List.filter _ rows) as [|f l IH]; [reflexivity|].
    cbn [List.filter negb]. rewrite IH. reflexivity.
Qed.

(** ** Properties of [add_paper] beyond the duplicate check *)

Lemma supplied_file_none (w : World) (path : string) (create : bool) :
  supplied_file w path create = None -> files w !! path = None /\ create = false.
Proof.
  unfold supplied_file. destruct (files w !! path); [discriminate|].
  destruct create; [discriminate|]. split; reflexivity.
Qed.


(** When the INSERT fails, and how. *)
Lemma insert_paper_outcome (db : Database) (title authors : string)
    (abstract publication_date category path hash : option string)
    (upload_date : string) (keywords : option string) :
  let new_id := Z.max (sqlite_sequence db) (max_id (papers db)) + 1 in
  match insert_paper db title authors abstract publication_date category path hash
          upload_date keywords with
  | Ok (paper_id, _) =>
      paper_id = new_id /\ new_id <= 9223372036854775807 /\
      constraints_hold path hash (papers db) = true
  | Raise OperationalError => 9223372036854775807 < new_id
  | Raise IntegrityError =>
      new_id <= 9223372036854775807 /\
      constraints_hold path hash (papers db) = false
  | Raise FileNotFoundError => False
  end.
Proof.
  intros new_id. unfold insert_paper. fold new_id.
  destruct (Z.ltb 9223372036854775807 new_id) eqn:Hover.
  - apply Z.ltb_lt in Hover. exact Hover.
  - apply Z.ltb_ge in Hover.
    destruct (constraints_hold path hash (papers db)); cbn [negb].
    + repeat split; assumption.
    + split; [exact Hover|reflexivity].
Qed.

(** X12: a call of [add_paper] without file path (none, or the empty
    text) is never a duplicate and never a constraint violation: unless the
    64-bit ids are used up it stores a new row, without path and hash, and
    it leaves the disk alone.  The same arguments twice are two papers. *)
Theorem add_paper_without_file (w : World) (db : Database) (title authors : string)
    (file_path abstract publication_date category keywords : option string)
    (create_sample_if_missing : bool) :
  given file_path = None ->
  Z.max (sqlite_sequence db) (max_id (papers db)) < 9223372036854775807 ->
  exists (db' : Database) (row : Paper.t),
    add_paper w db title authors file_path abstract publication_date category
      keywords create_sample_if_missing
    = (Ok (Some (Z.max (sqlite_sequence db) (max_id (papers db)) + 1)), w, db') /\
    papers db' = papers db ++ [row] /\
    Paper.title row = title /\ Paper.authors row = authors /\
    Paper.file_path row = None /\ Paper.file_hash row = None.
Proof.
  intros Hg Hroom. rewrite (add_paper_no_file _ _ _ _ _ _ _ _ _ _ Hg).
  pose proof (insert_paper_outcome db title authors abstract publication_date
                category None None (now w) keywords) as Hout.
  cbv zeta in Hout.
  destruct (insert_paper _ _ _ _ _ _ _ _ _ _) as [[i db1]|e] eqn:Hins.
  - destruct Hout as (-> & _ & _).
    apply insert_paper_result in Hins as (_ & _ & Hrows & _). cbv zeta in Hrows.
    eexists. eexists. split; [reflexivity|]. split; [exact Hrows|].
    repeat split.
  - destruct e; [destruct Hout| |lia].
    destruct Hout as [_ Hbad]. discriminate Hbad.
Qed.


(** X14: [add_paper] raises [IntegrityError] exactly when a file path is
    given, the file it hashes has a fingerprint that no stored paper has,
    some stored paper already has that path, and an id is left.  A known
    path with changed bytes is rejected, never stored a second time. *)
Theorem add_paper_integrity_error (w : World) (db : Database) (title authors : string)
    (file_path abstract publication_date category keywords : option string)
    (create_sample_if_missing : bool) :
  let r := add_paper w db title authors file_path abstract publication_date
             category keywords create_sample_if_missing in
  outcome_of r = Raise IntegrityError
  <-> exists (path : string) (content : list byte),
        given file_path = Some path /\
        files (world_of r) !! path = Some content /\
        hash_stored db (SHA256.sha256_hex content) = false /\
        (exists stored : Paper.t,
            In stored (papers db) /\ Paper.file_path stored = Some path) /\
        Z.max (sqlite_sequence db) (max_id (papers db)) < 9223372036854775807.
Proof.
  intros r. subst r.
  assert (Hpath : forall (path h : string),
             hash_stored db h = false ->
             (constraints_hold (Some path) (Some h) (papers db) = false
              <-> exists stored : Paper.t,
                    In stored (papers db) /\ Paper.file_path stored = Some path)).
  { intros path h Hh. unfold constraints_hold. cbn [unique_free].
    unfold hash_stored in Hh. rewrite Hh. cbn [negb]. rewrite andb_true_r.
    rewrite negb_false_iff, existsb_exists. split.
    - intros (s & Hs & Hp). exists s. split; [exact Hs|].
      apply bool_decide_eq_true in Hp. exact Hp.
    - intros (s & Hs & Hp). exists s. split; [exact Hs|].
      apply bool_decide_eq_true. exact Hp. }
  add_paper_cases file_path path Hg.
  - destruct (supplied_file w path create_sample_if_missing)
      as [[w1 content]|] eqn:Hs.
    + pose proof (supplied_file_lookup _ _ _ _ _ Hs) as Hfile.
      destruct (hash_stored db (SHA256.sha256_hex content)) eqn:Hdup.
      * unfold outcome_of, world_of; cbn [fst snd]. split; [discriminate|].
        intros (p & c & [= <-] & Hc & Hfresh & _). congruence.
      * pose proof (insert_paper_outcome db title authors abstract publication_date
                      category (Some path) (Some (SHA256.sha256_hex content))
                      (now w1) keywords) as Hout.
        cbv zeta in Hout.
        destruct (insert_paper _ _ _ _ _ _ _ _ _ _) as [[i db1]|e]; unfold outcome_of, world_of; cbn [fst snd].
        -- split; [discriminate|].
           intros (p & c & [= <-] & Hc & Hfresh & Hstored & _).
           assert (c = content) by congruence. subst c.
           destruct Hout as (_ & _ & Hok).
           apply (Hpath path _ Hdup) in Hstored. congruence.
        -- destruct e.
           ++ destruct Hout.
           ++ destruct Hout as [Hroom Hbad]. split; [|reflexivity]. intros _.
              exists path, content. split; [reflexivity|]. split; [exact Hfile|].
              split; [exact Hdup|]. split; [apply (Hpath path _ Hdup), Hbad|lia].
           ++ split; [discriminate|]. intros (_ & _ & _ & _ & _ & _ & Hroom). lia.
    + apply supplied_file_none in Hs as [Hnone _].
      unfold outcome_of, world_of; cbn [fst snd]. split; [discriminate|].
      intros (p & c & [= <-] & Hc & _). congruence.
  - pose proof (insert_paper_outcome db title authors abstract publication_date
                  category None None (now w) keywords) as Hout.
    cbv zeta in Hout.
    destruct (insert_paper _ _ _ _ _ _ _ _ _ _) as [[i db1]|e]; unfold outcome_of, world_of; cbn [fst snd].
    + split; [discriminate|]. intros (p & _ & ? & _). discriminate.
    + split; [|intros (p & _ & ? & _); discriminate].
      intros [= ->]. destruct Hout as [_ Hbad]. discriminate Hbad.
Qed.

(** ** The shape of a fingerprint *)

Lemma hex_length (l : list byte) :
  String.length (SHA256.hex l) = (2 * length l)%nat.
Proof.
  induction l as [|b l IH]; [reflexivity|].
  cbn [SHA256.hex String.length length]. rewrite IH. lia.
Qed.

Lemma be_bytes_length (n : nat) (x : Z) : length (SHA256.be_bytes n x) = n.
Proof.
  induction n as [|n IH]; [reflexivity|].
  cbn [SHA256.be_bytes length]. rewrite IH. reflexivity.
Qed.

Lemma hex_byte_lower (b : byte) :
  is_lower_hex (SHA256.hex_digit (Byte.to_N b / 16)) = true /\
  is_lower_hex (SHA256.hex_digit (Byte.to_N b mod 16)) = true.
Proof. destruct b; split; vm_compute; reflexivity. Qed.

Lemma hex_lower (l : list byte) :
  forallb is_lower_hex (list_ascii_of_string (SHA256.hex l)) = true.
Proof.
  induction l as [|b l IH]; [reflexivity|].
  cbn [SHA256.hex list_ascii_of_string forallb].
  destruct (hex_byte_lower b) as [-> ->]. exact IH.
Qed.

(** X15: the fingerprint [_calculate_file_hash] returns for a file has 64
    characters, each a digit or a letter from a to f. *)
Theorem calculate_file_hash_format (w : World) (file_path h : string) :
  _calculate_file_hash w file_path = Ok h ->
  String.length h = 64%nat /\
  forallb is_lower_hex (list_ascii_of_string h) = true.
Proof.
  unfold _calculate_file_hash. destruct (files w !! file_path); [|discriminate].
  intros [= <-]. unfold hexdigest. split; [|apply hex_lower].
  rewrite hex_length. unfold SHA256.bytes_of_regs.
  rewrite !length_app, !be_bytes_length. reflexivity.
Qed.

(** ** [main] *)

Lemma print_papers_results (ps : list Paper.t) :
  print_papers (map paper_dict ps) <> KeyError /\
  (print_papers (map paper_dict ps) = TypeError ->
   exists p : Paper.t, In p ps /\ Paper.abstract p = None).
Proof.
  induction ps as [|p ps [IH1 IH2]]; [split; discriminate|].
  cbn [map print_papers]. unfold print_paper.
  destruct (paper_dict_fields p) as (-> & -> & -> & -> & _).
  destruct (Paper.abstract p) as [a|] eqn:Ha; cbn [opt_value].
  - split; [exact IH1|]. intros Ht. destruct (IH2 Ht) as (q & Hq & Hab).
    exists q. split; [right; exact Hq|exact Hab].
  - split; [discriminate|]. intros _. exists p. split; [left; reflexivity|exact Ha].
Qed.

Section Main.

Context {E : Engine}.

(** The rows behind the results of a search pass the appended filters. *)
Lemma search_papers_filtered (db : Database)
    (query category author year : option string)
    (results : list (gmap string value)) :
  search_papers db query category author year = Ok results ->
  exists ps : list Paper.t,
    results = map paper_dict ps /\
    forall p : Paper.t,
      In p ps ->
      In p (papers db) /\
      forallb (fun f => filter_holds f p) (added_filters category author year) = true.
Proof.
  intros Hs. pose proof Hs as Hrows.
  apply search_papers_rows in Hrows as (ps0 & _ & _).
  unfold search_papers, execute_select in Hs.
  destruct (base_statement query) as [sql|e]; [|discriminate].
  destruct (base_rows db sql) as [rows|e] eqn:Hbase; [|discriminate].
  injection Hs as <-.
  exists (List.filter
            (fun p => forallb (fun f => filter_holds f p)
                        (added_filters category author year)) rows).
  split; [rewrite map_map; reflexivity|].
  intros p Hin. pose proof Hin as Hf. apply List.filter_In in Hf as [Hp Hf].
  split; [|exact Hf].
  destruct sql as [q|p1 p2 p3 p4|]; cbn in Hbase.
  - destruct (papers_fts db) as [ix|]; [|discriminate].
    destruct (fts5_match q) as [m|]; [|discriminate].
    injection Hbase as <-. apply in_flat_map in Hp as (p' & Hp' & Hp).
    apply in_map_iff in Hp as (f & <- & _). exact Hp'.
  - injection Hbase as <-. apply List.filter_In in Hp as [Hp _]. exact Hp.
  - injection Hbase as <-. exact Hp.
Qed.

(** What the call of [add_paper] in [main] leaves, after [clear_test_data]:
    the sample file written anew, and at most one more row. *)
Lemma main_add (w : World) (db : Database) (title authors : string)
    (abstract publication_date category keywords : option string) :
  files w !! "sample_paper.pdf" = None ->
  let added := add_paper w db title authors (Some "sample_paper.pdf") abstract
                 publication_date category keywords true in
  files (world_of added) !! "sample_paper.pdf" = Some (fpdf_output w) /\
  (database_of added = db \/
   exists (paper_id : Z) (row : Paper.t),
     outcome_of added = Ok (Some paper_id) /\
     papers (database_of added) = papers db ++ [row] /\
     papers_fts (database_of added) = after_insert row (papers_fts db)).
Proof.
  intros Hnone added. subst added.
  rewrite (add_paper_with_file w db title authors (Some "sample_paper.pdf") abstract
             publication_date category keywords true "sample_paper.pdf" eq_refl).
  unfold supplied_file. rewrite Hnone.
  assert (Hfile : files (fst (create_sample_pdf w "sample_paper.pdf"))
                    !! "sample_paper.pdf" = Some (fpdf_output w))
    by (cbn; apply lookup_insert_eq).
  destruct (hash_stored db _); [split; [exact Hfile|left; reflexivity]|].
  destruct (insert_paper _ _ _ _ _ _ _ _ _ _) as [[i db1]|e] eqn:Hins.
  - split; [exact Hfile|]. right.
    apply insert_paper_result in Hins as (_ & _ & Hrows & _ & Hfts).
    cbv zeta in Hrows, Hfts. eexists. eexists.
    split; [reflexivity|]. split; [exact Hrows|exact Hfts].
  - split; [exact Hfile|left; reflexivity].
Qed.

Lemma clear_test_data_world (w : World) (db : Database) :
  files (fst (clear_test_data w db)) !! "sample_paper.pdf" = None /\
  fpdf_output (fst (clear_test_data w db)) = fpdf_output w.
Proof.
  unfold clear_test_data. cbn [fst].
  destruct (path_exists w "sample_paper.pdf") eqn:Hex.
  - split; [cbn; apply lookup_delete_eq|reflexivity].
  - apply path_exists_false in Hex. split; [exact Hex|reflexivity].
Qed.

(** X16: on a database without full-text table and an engine without
    FTS5, [main] always ends with the [OperationalError] of its search
    propagating, whatever the disk and the stored papers. *)
Theorem main_without_fts5 (w : World) (db : Database) :
  fts5 = false -> papers_fts db = None ->
  fst (fst (main w db)) = Propagated OperationalError.
Proof.
  intros Hno Hix. unfold main.
  rewrite (initialize_database_no_fts5 db Hno Hix).
  set (cleared := clear_test_data w db).
  assert (Hcix : papers_fts (snd cleared) = None).
  { unfold cleared, clear_test_data, delete_title_like. cbn. rewrite Hix. reflexivity. }
  destruct (clear_test_data_world w db) as [Hnone _]. fold cleared in Hnone.
  destruct (main_add (fst cleared) (snd cleared)
              "Deep Learning for Natural Language Processing"
              "John Smith, Jane Doe"
              (Some "This paper explores deep learning techniques for NLP tasks...")
              (Some "2023-05-15") (Some "Machine Learning")
              (Some "deep learning, nlp, transformers") Hnone) as [_ Hdb].
  cbv zeta in Hdb.
  set (added := add_paper _ _ _ _ _ _ _ _ _ _) in *.
  assert (Haix : papers_fts (database_of added) = None).
  { destruct Hdb as [->|(i & row & _ & _ & ->)]; [exact Hcix|].
    rewrite Hcix. reflexivity. }
  unfold search_papers.
  rewrite (base_statement_query (Some "deep learning") "deep learning" eq_refl).
  unfold execute_select, base_rows. rewrite Haix. reflexivity.
Qed.


(** X18: [main] never ends in a [KeyError]: every result has the keys it
    reads.  It ends in a [TypeError] only when a stored paper of the
    category "Machine Learning" has no abstract, which its printing
    slices. *)
Theorem main_printing (w : World) (db : Database) :
  fst (fst (main w db)) <> KeyError /\
  (fst (fst (main w db)) = TypeError ->
   exists p : Paper.t,
     In p (papers (snd (main w db))) /\
     Paper.category p = Some "Machine Learning" /\
     Paper.abstract p = None).
Proof.
  unfold main.
  destruct (initialize_database_succeeds db) as [db0 Hinit]. rewrite Hinit.
  set (added := add_paper _ _ _ _ _ _ _ _ _ _).
  destruct (search_papers (database_of added) (Some "deep learning")
              (Some "Machine Learning") None None) as [results|e] eqn:Hs;
    cbn [fst snd]; [|split; discriminate].
  apply search_papers_filtered in Hs as (ps & -> & Hps).
  destruct (print_papers_results ps) as [Hkey Htype].
  split; [exact Hkey|]. intros Ht. destruct (Htype Ht) as (p & Hp & Hab).
  destruct (Hps p Hp) as [Hin Hf]. exists p. split; [exact Hin|].
  split; [|exact Hab].
  rewrite added_filters_hold in Hf. cbn in Hf.
  rewrite !andb_true_r in Hf. apply bool_decide_eq_true in Hf. exact Hf.
Qed.

End Main.

(** ** The properties on the sample data *)

Lemma sample_database_reachable : @reachable sample_engine sample_database.
Proof.
  assert (Hadd : sample_database
                 = snd (add_sample sample_world fresh_database "a.pdf" false))
    by (vm_compute; reflexivity).
  rewrite Hadd. unfold add_sample. apply (@reach_add sample_engine).
  apply (@reach_new sample_engine). reflexivity.
Qed.

(** X1 on a new database file, with FTS5. *)
Lemma initialize_database_idempotent_witness :
  @_initialize_database sample_engine fresh_database = Ok fresh_database /\
  papers fresh_database = papers empty_database /\
  sqlite_sequence fresh_database = sqlite_sequence empty_database.
Proof.
  exact (@initialize_database_idempotent sample_engine empty_database
           fresh_database eq_refl).
Defined.



(** X4 on the sample database. *)
Lemma reachable_ids_witness :
  ids_increasing (papers sample_database) /\
  (forall p q : Paper.t,
      In p (papers sample_database) -> In q (papers sample_database) ->
      Paper.id p = Paper.id q -> p = q) /\
  (forall p : Paper.t,
      In p (papers sample_database) ->
      1 <= Paper.id p <= sqlite_sequence sample_database).
Proof.
  exact (@reachable_ids sample_engine sample_database sample_database_reachable).
Defined.

(** X5 on the first sample call. *)
Lemma add_paper_fresh_id_witness :
  1 <= 1 /\
  sqlite_sequence fresh_database < 1 /\
  (forall p : Paper.t, In p (papers fresh_database) -> Paper.id p < 1) /\
  sqlite_sequence sample_database = 1 /\
  (forall w2 : World,
      sqlite_sequence (snd (clear_test_data w2 sample_database)) = 1).
Proof.
  apply (add_paper_fresh_id sample_world sample_world fresh_database sample_database
           "Deep Learning for X" "John Smith, Jane Doe" (Some "a.pdf")
           (Some "This paper explores deep learning.") (Some "2023-05-15")
           (Some "Machine Learning") (Some "deep learning, nlp") false 1).
  vm_compute. reflexivity.
Defined.


(** X7 on the first sample call. *)
Lemma categories_after_add_witness :
  NoDup (get_all_categories sample_database) /\
  In "Machine Learning" (get_all_categories sample_database).
Proof.
  destruct (@categories_after_add sample_world sample_world fresh_database
              sample_database
              "Deep Learning for X" "John Smith, Jane Doe" (Some "a.pdf")
              (Some "This paper explores deep learning.") (Some "2023-05-15")
              (Some "Machine Learning") (Some "deep learning, nlp") false 1)
    as [Hnd Hin].
  - vm_compute. reflexivity.
  - split; [exact Hnd|]. apply Hin. right. reflexivity.
Defined.

(** X8 on the sample database: a search by category. *)
Lemma search_filters_narrow_witness :
  exists unfiltered : list (gmap string value),
    @search_papers sample_engine sample_database None None None None
      = Ok unfiltered /\
    In (paper_dict sample_paper) unfiltered /\
    paper_dict sample_paper !! "category" = Some (VStr "Machine Learning").
Proof.
  destruct (@search_filters_narrow sample_engine sample_database
              None (Some "Machine Learning") None None [paper_dict sample_paper])
    as (unfiltered & Hs & Hall).
  - reflexivity.
  - exists unfiltered. split; [exact Hs|].
    destruct (Hall (paper_dict sample_paper)) as [Hin Hcat]; [left; reflexivity|].
    split; [exact Hin|]. apply Hcat. reflexivity.
Defined.

(** X9 on the first sample call. *)
Lemma add_then_search_witness :
  exists (results : list (gmap string value)) (d : gmap string value),
    @search_papers sample_engine sample_database None None None None = Ok results /\
    In d results /\
    d !! "id" = Some (VInt 1) /\
    d !! "title" = Some (VStr "Deep Learning for X") /\
    d !! "file_path" = Some (VStr "a.pdf").
Proof.
  destruct (@add_then_search sample_engine sample_world sample_world fresh_database
              sample_database
              "Deep Learning for X" "John Smith, Jane Doe" (Some "a.pdf")
              (Some "This paper explores deep learning.") (Some "2023-05-15")
              (Some "Machine Learning") (Some "deep learning, nlp") false 1)
    as (results & d & Hs & Hin & Hid & Hshows & Hpath & _).
  - vm_compute. reflexivity.
  - exists results, d. split; [exact Hs|]. split; [exact Hin|].
    split; [exact Hid|]. split; [apply Hshows|exact Hpath].
Defined.


(** X12 on a new database: a paper without file. *)
Lemma add_paper_without_file_witness :
  exists (db' : Database) (row : Paper.t),
    add_paper sample_world fresh_database "Reading notes" "Jane Doe"
      (Some "") None None None None false
    = (Ok (Some 1), sample_world, db') /\
    papers db' = [row] /\
    Paper.title row = "Reading notes" /\ Paper.authors row = "Jane Doe" /\
    Paper.file_path row = None /\ Paper.file_hash row = None.
Proof.
  apply (add_paper_without_file sample_world fresh_database "Reading notes"
           "Jane Doe" (Some "") None None None None false).
  - reflexivity.
  - reflexivity.
Defined.

(** X15 on the sample file. *)
Lemma calculate_file_hash_format_witness :
  String.length (SHA256.sha256_hex (bytes_of_string "ABC")) = 64%nat /\
  forallb is_lower_hex
    (list_ascii_of_string (SHA256.sha256_hex (bytes_of_string "ABC"))) = true.
Proof.
  apply (calculate_file_hash_format sample_world "a.pdf").
  vm_compute. reflexivity.
Defined.

(** X16 on a new database file and an engine without FTS5. *)
Lemma main_without_fts5_witness :
  fst (fst (@main sample_engine_no_fts5 sample_world empty_database))
  = Propagated OperationalError.
Proof.
  exact (@main_without_fts5 sample_engine_no_fts5 sample_world empty_database
           eq_refl eq_refl).
Defined.
